(** * Remote Controller Network (RCN): a shallow embedding of the node
    protocol core (rcn_common.h, rcn_host.h, rcn_controller.h).

    Machine integers are [Z]: a [uint8_t] value is taken modulo 256 when
    it is converted ([u8]), an [int8_t] is the two's complement reading of
    the low byte ([s8]).  The platform [int] used for [value] and [delta]
    parameters is modelled as unbounded [Z] (no overflow of
    [level + delta] is considered).  Assertions ([assert]) that fail abort
    the program: the operations return [option] and [None] is the abort.

    The Payload bit fields follow the GCC/AVR layout, where the first
    declared bit field ([channel : 7]) takes the low bits of byte 1 and
    [relative : 1] takes bit 7. *)

From Stdlib Require Import ZArith Lia Bool.
From stdpp Require Import base list.

Open Scope Z_scope.

(* ------------------------------------------------------------------ *)
(** ** Machine integers and the LIMIT macro *)

(** Conversion to [uint8_t]. *)
Definition u8 (x : Z) : Z := x mod 256.

(** Conversion to [int8_t] (two's complement of the low byte). *)
Definition s8 (x : Z) : Z :=
  let y := x mod 256 in if y <? 128 then y else y - 256.

(** [#define LIMIT(min, val, max) (min > val ? min : (max < val) ? max : val)] *)
Definition LIMIT (mn v mx : Z) : Z :=
  if v <? mn then mn else if mx <? v then mx else v.

(** Header bits of the JeeLib RF12 driver (RF12.h). *)
Definition RF12_HDR_DST : Z := 64.
Definition RF12_HDR_MASK : Z := 31.

(* ------------------------------------------------------------------ *)
(** ** RCN_Node: packets, payload codec and the send ring buffer *)

(** [class Packet { uint8_t hdr; union { Payload d; uint8_t b[2]; }; }] *)
Record Packet := mkPacket { hdr : Z; b : list Z }.

(** The two payload bytes after [p->d.relative = rel; p->d.channel = channel;]
    and a write of [value] to the [abs_level]/[rel_level] union member. *)
Definition payload_bytes (relative channel value : Z) : list Z :=
  [Z.lor (Z.land channel 127) (Z.shiftl (Z.land relative 1) 7); u8 value].

Definition SEND_BUF_SIZE : Z := 16.

(** [RCN_Node]: the ring buffer [send_buf], producer index [send_buf_next],
    consumer index [send_buf_done] and the node id.  [enqueued] is a ghost
    history: the packets handed to [prepare_packet], in order. *)
Record Node := mkNode {
  send_buf : list Packet;
  send_buf_next : Z;
  send_buf_done : Z;
  rf12_node : Z;
  enqueued : list Packet
}.

Definition zero_packet : Packet := mkPacket 0 [0; 0].

#[global] Instance Packet_inhabited : Inhabited Packet := populate zero_packet.

(** The constructor: both indices 0. *)
Definition node_init (buf : list Packet) (id : Z) : Node :=
  mkNode buf 0 0 id [].

(** [prepare_packet] returns the producer slot and advances the producer
    index with wrap-around; on reaching the consumer index it only prints
    a warning (not modelled: diagnostic output). *)
Definition prepare_packet (n : Node) : Node * Z :=
  (mkNode (send_buf n) ((send_buf_next n + 1) mod SEND_BUF_SIZE)
     (send_buf_done n) (rf12_node n) (enqueued n),
   send_buf_next n).

(** Filling the slot returned by [prepare_packet]. *)
Definition fill_slot (n : Node) (i : Z) (p : Packet) : Node :=
  mkNode (<[Z.to_nat i := p]> (send_buf n)) (send_buf_next n)
    (send_buf_done n) (rf12_node n) (enqueued n ++ [p]).

Definition send_packet (n : Node) (p : Packet) : Node :=
  let '(n', i) := prepare_packet n in fill_slot n' i p.

(** The broadcast packet of [send_status_update]. *)
Definition status_update_packet (n : Node) (channel level : Z) : Packet :=
  mkPacket (Z.land RF12_HDR_MASK (rf12_node n))
           (payload_bytes 0 (u8 channel) (u8 level)).

Definition send_status_update (n : Node) (channel level : Z) : Node :=
  send_packet n (status_update_packet n channel level).

Definition send_update_request_abs (n : Node) (host channel level : Z) : Node :=
  send_packet n (mkPacket (Z.lor RF12_HDR_DST (Z.land RF12_HDR_MASK (u8 host)))
                          (payload_bytes 0 (u8 channel) (u8 level))).

Definition send_update_request_rel (n : Node) (host channel adjust : Z) : Node :=
  send_packet n (mkPacket (Z.lor RF12_HDR_DST (Z.land RF12_HDR_MASK (u8 host)))
                          (payload_bytes 1 (u8 channel) (s8 adjust))).

Definition send_status_request (n : Node) (host channel : Z) : Node :=
  send_update_request_rel n host channel 0.

(** [RecvPacket]: copies of [rf12_hdr] and of the two payload bytes. *)
Record RecvPacket := mkRecv { rp_h : Z; rp_d : list Z }.

Definition byte1 (p : RecvPacket) : Z := nth 0 (rp_d p) 0.
Definition byte2 (p : RecvPacket) : Z := nth 1 (rp_d p) 0.

Definition bcast (p : RecvPacket) : bool := Z.land (rp_h p) RF12_HDR_DST =? 0.
Definition node_of (p : RecvPacket) : Z := Z.land (rp_h p) RF12_HDR_MASK.
Definition channel (p : RecvPacket) : Z := Z.land (byte1 p) 127.
Definition relative (p : RecvPacket) : bool := Z.testbit (byte1 p) 7.
Definition abs_level (p : RecvPacket) : Z := byte2 p.
Definition rel_level (p : RecvPacket) : Z := s8 (byte2 p).

(** What the RF12 driver offers to one [send_and_recv] call:
    [rf12_canSend()], [rf12_recvDone()], and the received frame
    [rf12_crc], [rf12_hdr], [rf12_data] (with [rf12_len] its length). *)
Record Radio := mkRadio {
  canSend : bool;
  recvDone : bool;
  rf12_crc : Z;
  rf12_hdr : Z;
  rf12_data : list Z
}.

(** The packets waiting in the ring: from the consumer index up to (not
    including) the producer index. *)
Definition queue_contents (n : Node) : list Packet :=
  let cnt := (send_buf_next n - send_buf_done n) mod SEND_BUF_SIZE in
  map (fun k => send_buf n !!! Z.to_nat ((send_buf_done n + Z.of_nat k) mod SEND_BUF_SIZE))
      (seq 0 (Z.to_nat cnt)).

(** [send_and_recv]: transmit one queued packet if possible (the consumer
    index advances), then parse at most one received frame. *)
Definition send_and_recv (n : Node) (r : Radio) : Node * option RecvPacket :=
  let n1 :=
    if negb (send_buf_next n =? send_buf_done n) && canSend r
    then mkNode (send_buf n) (send_buf_next n)
           ((send_buf_done n + 1) mod SEND_BUF_SIZE) (rf12_node n) (enqueued n)
    else n in
  if recvDone r then
    if negb (rf12_crc r =? 0) then (n1, None)
    else if negb (Z.of_nat (length (rf12_data r)) =? 2) then (n1, None)
    else (n1, Some (mkRecv (rf12_hdr r) (take 2 (rf12_data r))))
  else (n1, None).

#[global] Instance Z_inhabited' : Inhabited Z := populate 0.

(* ------------------------------------------------------------------ *)
(** ** RCN_Host *)

(** One invocation of the [update_filter] callback with its arguments
    (channel, range, data, old_level, new_level). *)
Record FilterCall := mkFilterCall {
  fc_channel : Z; fc_range : Z; fc_data : Z; fc_old : Z; fc_new : Z
}.

(** The filter callback.  Besides its five arguments it may depend on the
    history of its earlier invocations, which stands for any state a C
    callback keeps of its own.  Its [uint8_t] result is taken modulo 256
    where it is stored. *)
Definition update_filter : Type :=
  list FilterCall -> Z -> Z -> Z -> Z -> Z -> Z.

(** [RCN_Host]: the node, [num_channels], the three channel arrays of
    size [RCN_HOST_MAX_CHANNELS], and (ghost) the filter invocations. *)
Record Host := mkHost {
  h_node : Node;
  num_channels : Z;
  h_range : list Z;
  h_level : list Z;
  h_data : list Z;
  h_calls : list FilterCall
}.

Definition at_ (l : list Z) (i : Z) : Z := l !!! Z.to_nat i.
Definition upd (l : list Z) (i v : Z) : list Z := <[Z.to_nat i := v]> l.

Definition host_with_node (h : Host) (n : Node) : Host :=
  mkHost n (num_channels h) (h_range h) (h_level h) (h_data h) (h_calls h).

Section HostOps.
Variable RCN_HOST_MAX_CHANNELS : Z.
Variable handler : update_filter.

(** [uint8_t set(uint8_t channel, int value)] *)
Definition host_set (h : Host) (channel0 value : Z) : option Host :=
  let ch := u8 channel0 in
  if ch <? num_channels h then
    let r := at_ (h_range h) ch in
    let d := at_ (h_data h) ch in
    let old := at_ (h_level h) ch in
    let cand := LIMIT 0 value r in
    let nl := u8 (handler (h_calls h) ch r d old cand) in
    Some (mkHost (send_status_update (h_node h) ch nl)
                 (num_channels h) (h_range h) (upd (h_level h) ch nl) (h_data h)
                 (h_calls h ++ [mkFilterCall ch r d old cand]))
  else None.

(** [void add_channel(uint8_t r, uint8_t l, uint8_t d)]: the new channel's
    level slot keeps whatever it held, and is passed to the filter as the
    old level. *)
Definition host_add_channel (h : Host) (r l d : Z) : option Host :=
  if num_channels h <? RCN_HOST_MAX_CHANNELS then
    let ch := num_channels h in
    host_set (mkHost (h_node h) (ch + 1) (upd (h_range h) ch (u8 r))
                     (h_level h) (upd (h_data h) ch (u8 d)) (h_calls h))
             ch (u8 l)
  else None.

(** [uint8_t adjust(uint8_t channel, int delta)] *)
Definition host_adjust (h : Host) (channel0 delta : Z) : option Host :=
  host_set h channel0 (at_ (h_level h) (u8 channel0) + delta).

(** [void run(void)] *)
Definition host_run (h : Host) (r : Radio) : option Host :=
  let '(n', res) := send_and_recv (h_node h) r in
  let h1 := host_with_node h n' in
  match res with
  | None => Some h1
  | Some p =>
      if num_channels h1 <=? channel p then Some h1
      else if relative p then host_adjust h1 (channel p) (rel_level p)
      else host_set h1 (channel p) (abs_level p)
  end.

(** The public operations, as a caller drives them. *)
Inductive HostOp :=
| HAddChannel (r l d : Z)
| HSet (c v : Z)
| HAdjust (c v : Z)
| HRun (r : Radio).

Definition host_step (h : Host) (op : HostOp) : option Host :=
  match op with
  | HAddChannel r l d => host_add_channel h r l d
  | HSet c v => host_set h c v
  | HAdjust c v => host_adjust h c v
  | HRun r => host_run h r
  end.

Fixpoint host_exec (h : Host) (ops : list HostOp) : option Host :=
  match ops with
  | [] => Some h
  | op :: ops' => match host_step h op with
                  | Some h' => host_exec h' ops'
                  | None => None
                  end
  end.

End HostOps.

(** A freshly constructed host: no channels, arrays of the configured size
    with arbitrary contents. *)
Definition host_init (n : Node) (range level data : list Z) : Host :=
  mkHost n 0 range level data [].

(* ------------------------------------------------------------------ *)
(** ** RCN_Controller *)

(** One invocation of the [update_notifier] callback: its five arguments
    (channel, range, data, old_level, new_level), and [nc_seen], the
    cached level of that channel at the moment of the call (what [get]
    would return inside the callback). *)
Record NotifyCall := mkNotifyCall {
  nc_channel : Z; nc_range : Z; nc_data : Z; nc_old : Z; nc_new : Z;
  nc_seen : Z
}.

(** [RCN_Controller]: the node, [n_channels], the three arrays of size
    [RCN_CTRL_MAX_CHANNELS], and (ghost) the notifier invocations. *)
Record Ctrl := mkCtrl {
  c_node : Node;
  n_channels : Z;
  c_range : list Z;
  c_level : list Z;
  c_data : list Z;
  c_calls : list NotifyCall
}.

(** [const byte remote_host = 1;] *)
Definition remote_host : Z := 1.

Definition ctrl_with_node (c : Ctrl) (n : Node) : Ctrl :=
  mkCtrl n (n_channels c) (c_range c) (c_level c) (c_data c) (c_calls c).

(** [uint8_t update(uint8_t channel, int value)]: returns the new state
    and the stored value [v]. *)
Definition update (c : Ctrl) (channel0 value : Z) : option (Ctrl * Z) :=
  let ch := u8 channel0 in
  if ch <? n_channels c then
    let r := at_ (c_range c) ch in
    let d := at_ (c_data c) ch in
    let v := u8 (LIMIT 0 value r) in
    let call := mkNotifyCall ch r d (at_ (c_level c) ch) v (at_ (c_level c) ch) in
    Some (mkCtrl (c_node c) (n_channels c) (c_range c) (upd (c_level c) ch v)
                 (c_data c) (c_calls c ++ [call]), v)
  else None.

(** [void sync(uint8_t channel)] *)
Definition ctrl_sync (c : Ctrl) (channel0 : Z) : Ctrl :=
  ctrl_with_node c (send_status_request (c_node c) remote_host (u8 channel0)).

(** [void add_channel(uint8_t r, uint8_t l, uint8_t d)] *)
Definition ctrl_add_channel (MAX : Z) (c : Ctrl) (r l d : Z) : option Ctrl :=
  if n_channels c <? MAX then
    let ch := n_channels c in
    let c1 := mkCtrl (c_node c) (ch + 1) (upd (c_range c) ch (u8 r))
                     (upd (c_level c) ch (u8 l)) (upd (c_data c) ch (u8 d))
                     (c_calls c) in
    match update c1 ch (u8 l) with
    | Some (c2, _) => Some (ctrl_sync c2 ch)
    | None => None
    end
  else None.

(** [uint8_t set(uint8_t channel, int value)] *)
Definition ctrl_set (c : Ctrl) (channel0 value : Z) : option Ctrl :=
  match update c channel0 value with
  | Some (c1, ret) =>
      Some (ctrl_with_node c1
              (send_update_request_abs (c_node c1) remote_host (u8 channel0) ret))
  | None => None
  end.

(** [uint8_t adjust(uint8_t channel, int delta)]: the clamped [d] only
    decides and carries the request; the cache is updated with
    [level[channel] + delta]. *)
Definition ctrl_adjust (c : Ctrl) (channel0 delta : Z) : option Ctrl :=
  let d := s8 (LIMIT (-128) delta 127) in
  match update c channel0 (at_ (c_level c) (u8 channel0) + delta) with
  | Some (c1, _) =>
      if negb (d =? 0)
      then Some (ctrl_with_node c1
                   (send_update_request_rel (c_node c1) remote_host (u8 channel0) d))
      else Some c1
  | None => None
  end.

(** [void run(void)] *)
Definition ctrl_run (c : Ctrl) (r : Radio) : option Ctrl :=
  let '(n', res) := send_and_recv (c_node c) r in
  let c1 := ctrl_with_node c n' in
  match res with
  | None => Some c1
  | Some p =>
      if n_channels c1 <=? channel p then Some c1
      else if relative p then Some c1
      else match update c1 (channel p) (abs_level p) with
           | Some (c2, _) => Some c2
           | None => None
           end
  end.

(** Modelled from the spec: [RCN_Node::wake_up] and [RCN_Node::go_to_sleep]
    (called by the controller, absent from rcn_common.h) only hand the
    power-state transition to the transport; they leave the send queue as
    it is. *)
Definition node_wake_up (n : Node) : Node := n.
Definition node_go_to_sleep (n : Node) : Node := n.

(** The reset loop [for (size_t i = 0; i < n_channels; i++) update(i, 0);] *)
Fixpoint reset_loop (c : Ctrl) (is : list nat) : option Ctrl :=
  match is with
  | [] => Some c
  | i :: is' => match update c (Z.of_nat i) 0 with
                | Some (c', _) => reset_loop c' is'
                | None => None
                end
  end.

(** [void wake_up(bool reset)] *)
Definition ctrl_wake_up (c : Ctrl) (reset : bool) : option Ctrl :=
  let c1 := ctrl_with_node c (node_wake_up (c_node c)) in
  if reset then reset_loop c1 (seq 0 (Z.to_nat (n_channels c1))) else Some c1.

(** [bool go_to_sleep()] *)
Definition ctrl_go_to_sleep (c : Ctrl) : Ctrl :=
  ctrl_with_node c (node_go_to_sleep (c_node c)).

Inductive CtrlOp :=
| CAddChannel (r l d : Z)
| CSet (ch v : Z)
| CAdjust (ch v : Z)
| CSync (ch : Z)
| CRun (r : Radio)
| CSleep
| CWake (reset : bool).

Definition ctrl_step (MAX : Z) (c : Ctrl) (op : CtrlOp) : option Ctrl :=
  match op with
  | CAddChannel r l d => ctrl_add_channel MAX c r l d
  | CSet ch v => ctrl_set c ch v
  | CAdjust ch v => ctrl_adjust c ch v
  | CSync ch => Some (ctrl_sync c ch)
  | CRun r => ctrl_run c r
  | CSleep => Some (ctrl_go_to_sleep c)
  | CWake reset => ctrl_wake_up c reset
  end.

Fixpoint ctrl_exec (MAX : Z) (c : Ctrl) (ops : list CtrlOp) : option Ctrl :=
  match ops with
  | [] => Some c
  | op :: ops' => match ctrl_step MAX c op with
                  | Some c' => ctrl_exec MAX c' ops'
                  | None => None
                  end
  end.

Definition ctrl_init (n : Node) (range level data : list Z) : Ctrl :=
  mkCtrl n 0 range level data [].

(** The table invariant [0 <= level <= range] over the active channels. *)
Definition host_table_ok (h : Host) : Prop :=
  forall i, 0 <= i < num_channels h ->
            0 <= at_ (h_level h) i <= at_ (h_range h) i.

Definition ctrl_table_ok (c : Ctrl) : Prop :=
  forall i, 0 <= i < n_channels c ->
            0 <= at_ (c_level c) i <= at_ (c_range c) i.

(** The filter contract stated in rcn_host.h: "any return value within
    0 <= retval <= range is valid". *)
Definition filter_respects_range (f : update_filter) : Prop :=
  forall hist c r d o n, 0 <= n <= r -> u8 (f hist c r d o n) <= r.

(** Well-formed controller state: arrays of the configured size, the
    channel count within it, and byte-valued ranges and levels. *)
Definition ctrl_wf (MAX : Z) (c : Ctrl) : Prop :=
  length (c_range c) = Z.to_nat MAX /\ length (c_level c) = Z.to_nat MAX /\
  length (c_data c) = Z.to_nat MAX /\ 0 <= n_channels c <= MAX /\ MAX <= 256 /\
  forall i, 0 <= i < n_channels c -> 0 <= at_ (c_range c) i <= 255.

(** [k] status-update broadcasts (channel j, level j for j < k) handed to
    the node without any transmission in between. *)
Definition fill_queue (n : Node) (k : nat) : Node :=
  fold_left (fun n j => send_status_update n (Z.of_nat j) (Z.of_nat j)) (seq 0 k) n.

(** A one-channel host and a one-channel controller, and a radio frame
    for channel 5. *)
Definition buf0 : list Packet := repeat zero_packet 16.
Definition host1 : Host := mkHost (node_init buf0 2) 1 [100] [40] [0] [].
Definition ctrl1 : Ctrl := mkCtrl (node_init buf0 9) 1 [100] [40] [0] [].
Definition frame_ch5 : Radio := mkRadio false true 0 2 [5; 7].
Definition pass_filter : update_filter := fun _ _ _ _ _ n => n.

(** The notifier call expected for a write of [v] to channel [ch] of the
    cache [c]: channel, range, aux data, the old cached level, the new
    level, and the cached level seen during the call still the old one. *)
Definition expected_call (c : Ctrl) (ch v : Z) : NotifyCall :=
  mkNotifyCall ch (at_ (c_range c) ch) (at_ (c_data c) ch) (at_ (c_level c) ch) v
               (at_ (c_level c) ch).

(** Well-formed host state, as for the controller. *)
Definition host_wf (MAX : Z) (h : Host) : Prop :=
  length (h_range h) = Z.to_nat MAX /\ length (h_level h) = Z.to_nat MAX /\
  length (h_data h) = Z.to_nat MAX /\ 0 <= num_channels h <= MAX /\ MAX <= 256 /\
  forall i, 0 <= i < num_channels h -> 0 <= at_ (h_range h) i <= 255.

Definition host_inv (MAX : Z) (h : Host) : Prop := host_wf MAX h /\ host_table_ok h.
Definition ctrl_inv (MAX : Z) (c : Ctrl) : Prop := ctrl_wf MAX c /\ ctrl_table_ok c.

(** Byte-level checks of the payload encoding, decided by evaluation. *)
Definition byte1_ok (rel ch : Z) : bool :=
  let b1 := Z.lor (Z.land (u8 ch) 127) (Z.shiftl (Z.land rel 1) 7) in
  (Z.land b1 127 =? ch) && (Bool.eqb (Z.testbit b1 7) (rel =? 1)) && (b1 =? ch + 128 * rel).

Definition byte2_rel_ok (v : Z) : bool := (s8 (u8 (s8 v)) =? v) && (u8 (s8 v) =? v mod 256).

(** [uint8_t RCN_Host::get(uint8_t channel) const] *)
Definition host_get (h : Host) (channel0 : Z) : option Z :=
  let ch := u8 channel0 in
  if ch <? num_channels h then Some (at_ (h_level h) ch) else None.

(** [uint8_t RCN_Controller::get(uint8_t channel) const] *)
Definition ctrl_get (c : Ctrl) (channel0 : Z) : option Z :=
  let ch := u8 channel0 in
  if ch <? n_channels c then Some (at_ (c_level c) ch) else None.



(** What the code guarantees of each value it proposes to the filter or
    reports to the notifier: the new level lies within the channel's
    range, itself a byte. *)
Definition filter_call_ok (k : FilterCall) : Prop :=
  0 <= fc_new k <= fc_range k /\ fc_range k <= 255.
Definition notify_call_ok (k : NotifyCall) : Prop :=
  0 <= nc_new k <= nc_range k /\ nc_range k <= 255.

(* ================================================================== *)
(** * Lemmas *)

Lemma at_upd_eq l i v : 0 <= i -> i < Z.of_nat (length l) -> at_ (upd l i v) i = v.
Proof. intros. unfold at_, upd. apply list_lookup_total_insert_eq. lia. Qed.

Lemma at_upd_ne l i j v : 0 <= i -> 0 <= j -> i <> j -> at_ (upd l i v) j = at_ l j.
Proof. intros. unfold at_, upd. apply list_lookup_total_insert_ne. lia. Qed.

Lemma length_upd l i v : length (upd l i v) = length l.
Proof. apply length_insert. Qed.

Lemma u8_small x : 0 <= x < 256 -> u8 x = x.
Proof. intros. unfold u8. apply Z.mod_small. lia. Qed.

Lemma u8_range x : 0 <= u8 x < 256.
Proof. unfold u8. apply Z.mod_pos_bound. lia. Qed.

Lemma LIMIT_range v r : 0 <= r -> 0 <= LIMIT 0 v r <= r.
Proof. intros. unfold LIMIT. destruct (v <? 0) eqn:?, (r <? v) eqn:?; lia. Qed.

Lemma LIMIT_above v r : r < v -> 0 <= r -> LIMIT 0 v r = r.
Proof. intros. unfold LIMIT. destruct (v <? 0) eqn:?, (r <? v) eqn:?; lia. Qed.

Lemma enqueued_send_packet n p : enqueued (send_packet n p) = enqueued n ++ [p].
Proof. reflexivity. Qed.

Lemma enqueued_send_and_recv n r : enqueued (fst (send_and_recv n r)) = enqueued n.
Proof.
  unfold send_and_recv.
  destruct (negb _ && _), (recvDone r); try reflexivity;
    repeat (destruct (negb _); try reflexivity).
Qed.

(** Checking a Z predicate over a finite interval by evaluation. *)
Lemma forallb_interval (f : Z -> bool) lo (k : nat) :
  forallb f (map (fun j => lo + Z.of_nat j) (seq 0 k)) = true ->
  forall x, lo <= x < lo + Z.of_nat k -> f x = true.
Proof.
  intros H x Hx. rewrite forallb_forall in H. apply H.
  apply in_map_iff. exists (Z.to_nat (x - lo)). split; [lia|].
  apply in_seq. lia.
Qed.

Lemma byte1_ok_all rel ch : (rel = 0 \/ rel = 1) -> 0 <= ch <= 127 -> byte1_ok rel ch = true.
Proof.
  intros [-> | ->] Hch;
    (apply (forallb_interval _ 0 128); [vm_compute; reflexivity | lia]).
Qed.

Lemma byte2_rel_ok_all v : -128 <= v <= 127 -> byte2_rel_ok v = true.
Proof. intros. apply (forallb_interval _ (-128) 256); [vm_compute; reflexivity | lia]. Qed.

(* ================================================================== *)
(** * Claims *)

(** C4: for every channel in 0..127, relative flag and value in its legal
    range (0..255 absolute, -128..127 relative), the packet a node
    enqueues for the update request carries byte 1 = channel with the
    relative flag in bit 7 and byte 2 = the value's bit pattern, and
    decoding those bytes as [RecvPacket] gives back exactly
    (relative, channel, value). *)
Theorem payload_roundtrip (n : Node) (host ch v : Z) (rel : bool)
  (Hch : 0 <= ch <= 127)
  (Hv : if rel then -128 <= v <= 127 else 0 <= v <= 255) :
  let n' := if rel then send_update_request_rel n host ch v
            else send_update_request_abs n host ch v in
  exists p, enqueued n' = enqueued n ++ [p] /\
    b p = [ch + 128 * (if rel then 1 else 0); v mod 256] /\
    (let q := mkRecv (hdr p) (b p) in
     channel q = ch /\ relative q = rel /\
     (if rel then rel_level q else abs_level q) = v).
Proof.
  destruct rel; cbn zeta; eexists; (split; [reflexivity|]); cbn [b hdr];
    unfold channel, relative, rel_level, abs_level, byte1, byte2; cbn [rp_d nth];
    unfold payload_bytes.
  - pose proof (byte1_ok_all 1 ch ltac:(lia) Hch) as H1.
    pose proof (byte2_rel_ok_all v Hv) as H2.
    unfold byte1_ok, byte2_rel_ok in *.
    apply andb_prop in H1 as [H1 H3]; apply andb_prop in H1 as [H1 H4].
    apply andb_prop in H2 as [H2 H5].
    apply Z.eqb_eq in H1, H2, H3, H5. apply Bool.eqb_prop in H4.
    cbn [nth]. rewrite H1, H4, H2, H3, H5. repeat split.
  - pose proof (byte1_ok_all 0 ch ltac:(lia) Hch) as H1.
    unfold byte1_ok in *.
    apply andb_prop in H1 as [H1 H3]; apply andb_prop in H1 as [H1 H4].
    apply Z.eqb_eq in H1, H3. apply Bool.eqb_prop in H4.
    cbn [nth]. rewrite H1, H4, H3. rewrite !(u8_small v) by lia.
    rewrite Z.mod_small by lia. repeat split.
Qed.

(** Witness for C4, at channel 3 with a relative delta of -5. *)
Lemma payload_roundtrip_witness :
  (0 <= 3 <= 127 /\ -128 <= -5 <= 127) /\
  (let n := node_init (repeat zero_packet 16) 9 in
   let n' := send_update_request_rel n 1 3 (-5) in
   exists p, enqueued n' = enqueued n ++ [p] /\
    b p = [3 + 128 * 1; -5 mod 256] /\
    (let q := mkRecv (hdr p) (b p) in
     channel q = 3 /\ relative q = true /\ rel_level q = -5)).
Proof.
  split; [lia|].
  exact (payload_roundtrip (node_init (repeat zero_packet 16) 9) 1 3 (-5) true
           ltac:(lia) ltac:(simpl; lia)).
Defined.

(** C2 (the overflow of the 16-slot ring): starting from an empty queue,
    fifteen packets are queued; the sixteenth enqueue advances the
    producer index onto the consumer index, after which the queue holds no
    packet at all: the result is neither a rejection of the new packet,
    nor an append, nor an eviction of the oldest entry.  A seventeenth
    enqueue then overwrites the unsent slot 0. *)
Theorem queue_overflow_loses_unsent :
  let n15 := fill_queue (node_init (repeat zero_packet 16) 1) 15 in
  let p16 := mkPacket 1 (payload_bytes 0 15 15) in
  let n16 := send_status_update n15 15 15 in
  let p17 := mkPacket 1 (payload_bytes 0 99 99) in
  let n17 := send_packet n16 p17 in
  length (queue_contents n15) = 15%nat /\
  enqueued n16 = enqueued n15 ++ [p16] /\
  queue_contents n16 = [] /\
  ~ (queue_contents n16 = queue_contents n15 \/
     queue_contents n16 = queue_contents n15 ++ [p16] \/
     queue_contents n16 = tail (queue_contents n15) ++ [p16]) /\
  send_buf n16 !!! 0%nat = mkPacket 1 (payload_bytes 0 0 0) /\
  send_buf n17 !!! 0%nat = p17 /\ queue_contents n17 = [p17].
Proof.
  cbn zeta. repeat match goal with |- _ /\ _ => split end; try (vm_compute; reflexivity).
  intros [H | [H | H]]; vm_compute in H; discriminate H.
Qed.

Lemma channel_range p : 0 <= channel p <= 127.
Proof.
  unfold channel.
  assert (E : Z.land (byte1 p) 127 = byte1 p mod 128)
    by (change 127 with (Z.ones 7); rewrite Z.land_ones; [reflexivity | lia]).
  rewrite E. pose proof (Z.mod_pos_bound (byte1 p) 128 ltac:(lia)). lia.
Qed.

Lemma send_and_recv_fst n r n' res : send_and_recv n r = (n', res) -> enqueued n' = enqueued n.
Proof.
  intros H. pose proof (enqueued_send_and_recv n r) as E. rewrite H in E. exact E.
Qed.

(** A successful [set] on a known channel stores the filter's result and
    hands one broadcast of the stored level to the node. *)
Lemma host_set_spec flt h ch v :
  0 <= ch < num_channels h -> ch < 256 ->
  num_channels h <= Z.of_nat (length (h_level h)) ->
  exists h', host_set flt h ch v = Some h' /\
    h_node h' = send_status_update (h_node h) ch (at_ (h_level h') ch) /\
    num_channels h' = num_channels h /\ length (h_level h') = length (h_level h).
Proof.
  intros Hch H256 Hlen. unfold host_set. rewrite (u8_small ch) by lia.
  destruct (Z.ltb_spec ch (num_channels h)); [|lia].
  eexists; split; [reflexivity|]. cbn [h_node h_level num_channels].
  rewrite at_upd_eq by lia. rewrite length_upd. auto.
Qed.

(** [run] hands a parsed packet for a known channel to [adjust] or [set]
    according to its relative flag, and to nothing else. *)
Lemma host_run_accepted flt h r n' p :
  send_and_recv (h_node h) r = (n', Some p) -> channel p < num_channels h ->
  host_run flt h r =
    if relative p then host_adjust flt (host_with_node h n') (channel p) (rel_level p)
    else host_set flt (host_with_node h n') (channel p) (abs_level p).
Proof.
  intros Hr Hch. unfold host_run. rewrite Hr. cbn [num_channels host_with_node].
  destruct (Z.leb_spec (num_channels h) (channel p)); [lia|]. reflexivity.
Qed.

Lemma host_run_accepted_broadcast flt h r n' p :
  send_and_recv (h_node h) r = (n', Some p) -> channel p < num_channels h ->
  num_channels h <= Z.of_nat (length (h_level h)) ->
  exists h', host_run flt h r = Some h' /\
    h_node h' = send_status_update n' (channel p) (at_ (h_level h') (channel p)).
Proof.
  intros Hr Hch Hlen. rewrite (host_run_accepted flt h r n' p Hr Hch).
  pose proof (channel_range p).
  destruct (relative p); [unfold host_adjust|];
    (edestruct (host_set_spec flt (host_with_node h n') (channel p))
       as (h' & E & Hn & _); [cbn; lia | lia | cbn; lia |]);
    [rewrite (u8_small (channel p)) by lia|]; rewrite E; eauto.
Qed.

(** C3: for every packet that [send_and_recv] parses with a channel id
    below the channel count, the host's [run] hands exactly one packet to
    the send queue: a status-update broadcast of that channel carrying the
    level stored afterwards; the ring gets this packet at the producer
    slot and the producer index advances by one.  This holds for every
    filter and for absolute, relative and status requests alike. *)
Theorem host_run_one_broadcast flt h r n' p
  (Hrecv : send_and_recv (h_node h) r = (n', Some p))
  (Hch : channel p < num_channels h)
  (Hlen : num_channels h <= Z.of_nat (length (h_level h))) :
  exists h', host_run flt h r = Some h' /\
    (let pk := status_update_packet n' (channel p) (at_ (h_level h') (channel p)) in
     enqueued (h_node h') = enqueued (h_node h) ++ [pk] /\
     send_buf (h_node h') = <[Z.to_nat (send_buf_next n') := pk]> (send_buf n') /\
     send_buf_next (h_node h') = (send_buf_next n' + 1) mod SEND_BUF_SIZE /\
     send_buf_done (h_node h') = send_buf_done n').
Proof.
  destruct (host_run_accepted_broadcast flt h r n' p Hrecv Hch Hlen) as (h' & E & Hn).
  exists h'. split; [exact E|]. cbn zeta. rewrite Hn.
  rewrite <- (send_and_recv_fst _ _ _ _ Hrecv). repeat split.
Qed.

Lemma host_run_one_broadcast_witness :
  exists h', host_run pass_filter host1 (mkRadio false true 0 65 [128; 15]) = Some h' /\
    enqueued (h_node h') = enqueued (h_node host1) ++
      [status_update_packet (h_node host1) 0 (at_ (h_level h') 0)] /\
    at_ (h_level h') 0 = 55.
Proof.
  assert (Hr : send_and_recv (h_node host1) (mkRadio false true 0 65 [128; 15]) =
               (h_node host1, Some (mkRecv 65 [128; 15]))) by reflexivity.
  assert (Hch : channel (mkRecv 65 [128; 15]) < num_channels host1) by reflexivity.
  assert (Hlen : num_channels host1 <= Z.of_nat (length (h_level host1))) by (cbn; lia).
  destruct (host_run_one_broadcast pass_filter host1 _ _ _ Hr Hch Hlen) as (h' & E & Hq & _).
  exists h'. split; [exact E|]. split; [exact Hq|].
  injection E as <-. reflexivity.
Defined.

Lemma ctrl_run_unknown c r n' p :
  send_and_recv (c_node c) r = (n', Some p) -> n_channels c <= channel p ->
  ctrl_run c r = Some (ctrl_with_node c n').
Proof.
  intros Hr Hch. unfold ctrl_run. rewrite Hr. cbn [n_channels ctrl_with_node].
  destruct (Z.leb_spec (n_channels c) (channel p)); [reflexivity | lia].
Qed.

(** C8: a parsed packet whose channel id is not below the receiver's
    channel count leaves the host's table (count, ranges, levels, aux
    data) and the controller's table unchanged, and neither the filter nor
    the notifier is invoked; only the node's send side may have moved. *)
Theorem unknown_channel_no_change :
  (forall flt h r n' p,
     send_and_recv (h_node h) r = (n', Some p) -> num_channels h <= channel p ->
     exists h', host_run flt h r = Some h' /\ h_node h' = n' /\
       num_channels h' = num_channels h /\ h_range h' = h_range h /\
       h_level h' = h_level h /\ h_data h' = h_data h /\ h_calls h' = h_calls h) /\
  (forall c r n' p,
     send_and_recv (c_node c) r = (n', Some p) -> n_channels c <= channel p ->
     exists c', ctrl_run c r = Some c' /\ c_node c' = n' /\
       n_channels c' = n_channels c /\ c_range c' = c_range c /\
       c_level c' = c_level c /\ c_data c' = c_data c /\ c_calls c' = c_calls c).
Proof.
  split.
  - intros flt h r n' p Hr Hch. exists (host_with_node h n').
    split; [|repeat split]. unfold host_run. rewrite Hr. cbn [num_channels host_with_node].
    destruct (Z.leb_spec (num_channels h) (channel p)); [reflexivity | lia].
  - intros c r n' p Hr Hch. exists (ctrl_with_node c n').
    split; [apply (ctrl_run_unknown c r n' p Hr Hch) | repeat split].
Qed.

Lemma unknown_channel_no_change_witness :
  send_and_recv (h_node host1) frame_ch5 = (h_node host1, Some (mkRecv 2 [5; 7])) /\
  num_channels host1 <= channel (mkRecv 2 [5; 7]) /\
  send_and_recv (c_node ctrl1) frame_ch5 = (c_node ctrl1, Some (mkRecv 2 [5; 7])) /\
  n_channels ctrl1 <= channel (mkRecv 2 [5; 7]) /\
  (exists h', host_run pass_filter host1 frame_ch5 = Some h' /\ h_level h' = h_level host1) /\
  (exists c', ctrl_run ctrl1 frame_ch5 = Some c' /\ c_level c' = c_level ctrl1).
Proof.
  assert (Hh : send_and_recv (h_node host1) frame_ch5 = (h_node host1, Some (mkRecv 2 [5; 7])))
    by reflexivity.
  assert (Hc : send_and_recv (c_node ctrl1) frame_ch5 = (c_node ctrl1, Some (mkRecv 2 [5; 7])))
    by reflexivity.
  assert (Hn : 1 <= channel (mkRecv 2 [5; 7])) by (vm_compute; discriminate).
  split; [exact Hh|]. split; [exact Hn|]. split; [exact Hc|]. split; [exact Hn|].
  split.
  - destruct (proj1 unknown_channel_no_change pass_filter host1 frame_ch5 _ _ Hh Hn)
      as (h' & E & _ & _ & _ & L & _). eauto.
  - destruct (proj2 unknown_channel_no_change ctrl1 frame_ch5 _ _ Hc Hn)
      as (c' & E & _ & _ & _ & L & _). eauto.
Defined.

(** C6: the status request a node enqueues is the relative update request
    with delta 0 (same node state, same packet, byte for byte), and when a
    host with that channel receives this packet, its [run] takes the
    relative branch like any relative update request ([adjust] by 0) and
    enqueues one status-update broadcast of the stored level. *)
Theorem status_request_same_path (n : Node) (host ch : Z) :
  send_status_request n host ch = send_update_request_rel n host ch 0 /\
  exists pk, enqueued (send_status_request n host ch) = enqueued n ++ [pk] /\
    enqueued (send_update_request_rel n host ch 0) = enqueued n ++ [pk] /\
    forall flt h r,
      0 <= ch <= 127 -> ch < num_channels h ->
      num_channels h <= Z.of_nat (length (h_level h)) ->
      recvDone r = true -> rf12_crc r = 0 -> rf12_hdr r = hdr pk -> rf12_data r = b pk ->
      host_run flt h r =
        host_adjust flt (host_with_node h (fst (send_and_recv (h_node h) r))) ch 0 /\
      exists h', host_run flt h r = Some h' /\
        enqueued (h_node h') = enqueued (h_node h) ++
          [status_update_packet (fst (send_and_recv (h_node h) r)) ch (at_ (h_level h') ch)].
Proof.
  split; [reflexivity|].
  set (pk := mkPacket (Z.lor RF12_HDR_DST (Z.land RF12_HDR_MASK (u8 host)))
                      (payload_bytes 1 (u8 ch) (s8 0))).
  exists pk. split; [reflexivity|]. split; [reflexivity|].
  intros flt h r Hch Hn Hlen Hd Hcrc Hh Hdata.
  destruct (send_and_recv (h_node h) r) as [n' res] eqn:Hr.
  assert (Hp : res = Some (mkRecv (hdr pk) (b pk))).
  { unfold send_and_recv in Hr. rewrite Hd, Hcrc, Hh, Hdata in Hr.
    destruct (negb _ && _); inversion Hr; reflexivity. }
  subst res. cbn [fst].
  pose proof (byte1_ok_all 1 ch ltac:(lia) Hch) as H1.
  unfold byte1_ok in H1.
  apply andb_prop in H1 as [H1 H4]; apply andb_prop in H1 as [H1 H3].
  apply Z.eqb_eq in H1. apply Bool.eqb_prop in H3.
  assert (Ec : channel (mkRecv (hdr pk) (b pk)) = ch) by exact H1.
  assert (Er : relative (mkRecv (hdr pk) (b pk)) = true) by exact H3.
  assert (El : rel_level (mkRecv (hdr pk) (b pk)) = 0) by reflexivity.
  split.
  - rewrite (host_run_accepted flt h r n' _ Hr) by lia. rewrite Er, Ec, El. reflexivity.
  - destruct (host_run_accepted_broadcast flt h r n' _ Hr ltac:(lia) Hlen) as (h' & E & Hn').
    exists h'. split; [exact E|]. rewrite Hn', Ec.
    rewrite <- (send_and_recv_fst _ _ _ _ Hr). reflexivity.
Qed.

Lemma status_request_same_path_witness :
  0 <= 0 <= 127 /\ 0 < num_channels host1 /\
  exists h', host_run pass_filter host1 (mkRadio false true 0 65 [128; 0]) = Some h' /\
    enqueued (h_node h') = enqueued (h_node host1) ++
      [status_update_packet (h_node host1) 0 (at_ (h_level h') 0)].
Proof.
  split; [lia|]. split; [vm_compute; reflexivity|].
  destruct (status_request_same_path (c_node ctrl1) remote_host 0) as [_ (pk & E1 & _ & H)].
  assert (Hpk : pk = mkPacket 65 [128; 0]).
  { vm_compute in E1. injection E1. auto. }
  subst pk.
  destruct (H pass_filter host1 (mkRadio false true 0 65 [128; 0])) as [_ H2];
    try (vm_compute; reflexivity || discriminate); try lia.
  exact H2.
Defined.

Lemma s8_small x : -128 <= x <= 127 -> s8 x = x.
Proof.
  intros Hx. apply Z.eqb_eq.
  apply (forallb_interval (fun x => s8 x =? x) (-128) 256); [vm_compute; reflexivity | lia].
Qed.

Lemma LIMIT_s8_range delta : -128 <= LIMIT (-128) delta 127 <= 127.
Proof. unfold LIMIT. destruct (delta <? -128) eqn:?, (127 <? delta) eqn:?; lia. Qed.

Lemma LIMIT_s8_zero delta : LIMIT (-128) delta 127 = 0 <-> delta = 0.
Proof. unfold LIMIT. destruct (delta <? -128) eqn:?, (127 <? delta) eqn:?; lia. Qed.

(** [update] on a known channel whose range is a byte: it records one
    notifier call (channel, range, data, old level, clamped value) made
    while the cache still holds the old level, then stores the clamped
    value. *)
Lemma update_spec c ch v :
  0 <= ch < n_channels c -> ch < 256 ->
  n_channels c <= Z.of_nat (length (c_level c)) ->
  0 <= at_ (c_range c) ch <= 255 ->
  update c ch v =
    Some (mkCtrl (c_node c) (n_channels c) (c_range c)
            (upd (c_level c) ch (LIMIT 0 v (at_ (c_range c) ch))) (c_data c)
            (c_calls c ++ [mkNotifyCall ch (at_ (c_range c) ch) (at_ (c_data c) ch)
                             (at_ (c_level c) ch) (LIMIT 0 v (at_ (c_range c) ch))
                             (at_ (c_level c) ch)]),
          LIMIT 0 v (at_ (c_range c) ch)).
Proof.
  intros Hch H256 Hlen Hr. unfold update. rewrite (u8_small ch) by lia.
  destruct (Z.ltb_spec ch (n_channels c)); [|lia].
  pose proof (LIMIT_range v (at_ (c_range c) ch) ltac:(lia)).
  rewrite (u8_small (LIMIT 0 v _)) by lia. reflexivity.
Qed.

Lemma update_none c ch v : n_channels c <= u8 ch -> update c ch v = None.
Proof. intros H. unfold update. destruct (Z.ltb_spec (u8 ch) (n_channels c)); [lia | reflexivity]. Qed.

Lemma ctrl_run_accepted c r n' p :
  send_and_recv (c_node c) r = (n', Some p) ->
  channel p < n_channels c -> relative p = false ->
  ctrl_run c r = match update (ctrl_with_node c n') (channel p) (abs_level p) with
                 | Some (c2, _) => Some c2
                 | None => None
                 end.
Proof.
  intros Hr Hch Hrel. unfold ctrl_run. rewrite Hr. cbn [n_channels ctrl_with_node].
  destruct (Z.leb_spec (n_channels c) (channel p)); [lia|]. rewrite Hrel. reflexivity.
Qed.

Lemma ctrl_run_relative c r n' p :
  send_and_recv (c_node c) r = (n', Some p) -> relative p = true ->
  ctrl_run c r = Some (ctrl_with_node c n').
Proof.
  intros Hr Hrel. unfold ctrl_run. rewrite Hr. cbn [n_channels ctrl_with_node].
  destruct (n_channels c <=? channel p); [reflexivity|]. rewrite Hrel. reflexivity.
Qed.

(** C9: when the controller's [run] accepts a packet reporting the
    absolute level [v] for a known channel [c], the cache stores
    [LIMIT(0, v, range[c])] for the locally registered range, which is
    the range itself, not [v], whenever [v] exceeds it. *)
Theorem ctrl_run_stores_clamped c r n' p
  (Hrecv : send_and_recv (c_node c) r = (n', Some p))
  (Hch : channel p < n_channels c) (Hrel : relative p = false)
  (Hlen : n_channels c <= Z.of_nat (length (c_level c)))
  (Hrange : 0 <= at_ (c_range c) (channel p) <= 255) :
  exists c', ctrl_run c r = Some c' /\
    at_ (c_level c') (channel p) = LIMIT 0 (abs_level p) (at_ (c_range c) (channel p)) /\
    (at_ (c_range c) (channel p) < abs_level p ->
     at_ (c_level c') (channel p) = at_ (c_range c) (channel p)).
Proof.
  pose proof (channel_range p).
  rewrite (ctrl_run_accepted c r n' p Hrecv Hch Hrel).
  rewrite (update_spec (ctrl_with_node c n')) by (cbn; lia).
  eexists; split; [reflexivity|]. cbn [c_level c_range ctrl_with_node].
  rewrite at_upd_eq by lia. split; [reflexivity|].
  intros Hv. apply LIMIT_above; lia.
Qed.

Lemma ctrl_run_stores_clamped_witness :
  exists c', ctrl_run ctrl1 (mkRadio false true 0 2 [0; 200]) = Some c' /\
    at_ (c_level c') 0 = 100.
Proof.
  assert (Hr : send_and_recv (c_node ctrl1) (mkRadio false true 0 2 [0; 200]) =
               (c_node ctrl1, Some (mkRecv 2 [0; 200]))) by reflexivity.
  destruct (ctrl_run_stores_clamped ctrl1 _ _ _ Hr) as (c' & E & _ & H);
    try (vm_compute; reflexivity || discriminate || (split; discriminate)).
  exists c'. split; [exact E|]. apply H. vm_compute. reflexivity.
Defined.

(** C5 (as stated, refuted): a directed packet (destination bit set in
    the header, addressed to the controller's node 9) carrying an
    absolute level for a known channel changes the controller's cache. *)
Lemma ctrl_accepts_directed_packet :
  let r := mkRadio false true 0 (Z.lor RF12_HDR_DST 9) [0; 7] in
  send_and_recv (c_node ctrl1) r = (c_node ctrl1, Some (mkRecv 73 [0; 7])) /\
  bcast (mkRecv 73 [0; 7]) = false /\
  c_level ctrl1 = [40] /\
  exists c', ctrl_run ctrl1 r = Some c' /\ c_level c' = [7].
Proof.
  cbn zeta. split; [reflexivity|]. split; [reflexivity|]. split; [reflexivity|].
  eexists; split; reflexivity.
Qed.

(** C5 (amended): the controller's [run] changes its cache only for a
    parsed packet whose relative flag is clear and whose channel id is
    below the channel count, and then stores the clamped level whatever
    the packet's origin (broadcast or directed); a packet with the
    relative flag set or an unknown channel id leaves levels, ranges, aux
    data and the notifier history unchanged. *)
Theorem ctrl_run_filters_packets c r n' p c'
  (Hrecv : send_and_recv (c_node c) r = (n', Some p))
  (Hrun : ctrl_run c r = Some c') :
  n_channels c' = n_channels c /\ c_range c' = c_range c /\ c_data c' = c_data c /\
  ((n_channels c <= channel p \/ relative p = true) ->
     c_level c' = c_level c /\ c_calls c' = c_calls c) /\
  ((channel p < n_channels c /\ relative p = false) ->
     c_level c' = upd (c_level c) (channel p)
                      (u8 (LIMIT 0 (abs_level p) (at_ (c_range c) (channel p))))).
Proof.
  pose proof (channel_range p).
  destruct (Z.leb_spec (n_channels c) (channel p)) as [Hge | Hlt].
  - rewrite (ctrl_run_unknown c r n' p Hrecv Hge) in Hrun. injection Hrun as <-.
    cbn. split; [reflexivity|]. split; [reflexivity|]. split; [reflexivity|].
    split; [intros _; split; reflexivity | intros [? _]; lia].
  - destruct (relative p) eqn:Hrel.
    + rewrite (ctrl_run_relative c r n' p Hrecv Hrel) in Hrun. injection Hrun as <-.
      cbn. split; [reflexivity|]. split; [reflexivity|]. split; [reflexivity|].
      split; [intros _; split; reflexivity | intros [_ ?]; discriminate].
    + rewrite (ctrl_run_accepted c r n' p Hrecv Hlt Hrel) in Hrun.
      unfold update in Hrun. cbn [n_channels ctrl_with_node] in Hrun.
      rewrite (u8_small (channel p)) in Hrun by lia.
      destruct (Z.ltb_spec (channel p) (n_channels c)); [|lia].
      injection Hrun as <-. cbn.
      split; [reflexivity|]. split; [reflexivity|]. split; [reflexivity|].
      split; [intros [? | ?]; [lia | discriminate] | intros _; reflexivity].
Qed.

Lemma ctrl_run_filters_packets_witness :
  exists c', ctrl_run ctrl1 (mkRadio false true 0 73 [0; 7]) = Some c' /\
    c_level c' = upd [40] 0 (u8 (LIMIT 0 7 100)).
Proof.
  assert (Hr : send_and_recv (c_node ctrl1) (mkRadio false true 0 73 [0; 7]) =
               (c_node ctrl1, Some (mkRecv 73 [0; 7]))) by reflexivity.
  assert (Hrun : ctrl_run ctrl1 (mkRadio false true 0 73 [0; 7]) =
                 Some (mkCtrl (c_node ctrl1) 1 [100] [7] [0]
                         [mkNotifyCall 0 100 0 40 7 40])) by reflexivity.
  exists (mkCtrl (c_node ctrl1) 1 [100] [7] [0] [mkNotifyCall 0 100 0 40 7 40]).
  split; [exact Hrun|].
  destruct (ctrl_run_filters_packets ctrl1 _ _ _ _ Hr Hrun) as (_ & _ & _ & _ & H).
  apply H. split; [vm_compute; reflexivity | reflexivity].
Defined.

Lemma ctrl_wf_update_args MAX c ch :
  ctrl_wf MAX c -> 0 <= ch < n_channels c ->
  ch < 256 /\ n_channels c <= Z.of_nat (length (c_level c)) /\
  0 <= at_ (c_range c) ch <= 255.
Proof.
  intros (Hr & Hl & Hd & Hn & H256 & Hrange) Hch.
  split; [lia|]. split; [rewrite Hl; lia|]. apply Hrange; lia.
Qed.

(** [adjust] on a known channel performs [update(channel, level + delta)]
    and then at most a node send. *)
Lemma ctrl_adjust_spec_core MAX c ch delta :
  ctrl_wf MAX c -> 0 <= ch < n_channels c ->
  exists c1 c', update c ch (at_ (c_level c) ch + delta) =
                  Some (c1, LIMIT 0 (at_ (c_level c) ch + delta) (at_ (c_range c) ch)) /\
    ctrl_adjust c ch delta = Some c' /\
    c_level c' = c_level c1 /\ c_calls c' = c_calls c1 /\
    c_level c' = upd (c_level c) ch (LIMIT 0 (at_ (c_level c) ch + delta) (at_ (c_range c) ch)).
Proof.
  intros Hwf Hch. destruct (ctrl_wf_update_args MAX c ch Hwf Hch) as (H256 & Hlen & Hr).
  unfold ctrl_adjust. rewrite (u8_small ch) by lia. rewrite (update_spec c ch) by lia.
  destruct (negb _); do 2 eexists; repeat split; reflexivity.
Qed.

(** C7: [adjust(channel, delta)] clamps [delta] to -128..127 for the
    request, updates the cache exactly as [update(channel, level + delta)]
    would (the unclamped [delta] goes into the cache update), and hands a
    directed relative-update request carrying the clamped delta to the
    node if and only if that clamped delta is non-zero, which is the case
    exactly when [delta] is non-zero. *)
Theorem ctrl_adjust_spec MAX c ch delta
  (Hwf : ctrl_wf MAX c) (Hch : 0 <= ch < n_channels c) :
  let d := LIMIT (-128) delta 127 in
  let v := LIMIT 0 (at_ (c_level c) ch + delta) (at_ (c_range c) ch) in
  exists c1 c',
    update c ch (at_ (c_level c) ch + delta) = Some (c1, v) /\
    ctrl_adjust c ch delta = Some c' /\
    c_level c' = c_level c1 /\ c_calls c' = c_calls c1 /\
    c_level c' = upd (c_level c) ch v /\
    -128 <= d <= 127 /\ (d <> 0 <-> delta <> 0) /\
    enqueued (c_node c') = enqueued (c_node c) ++
      (if d =? 0 then []
       else [mkPacket (Z.lor RF12_HDR_DST (Z.land RF12_HDR_MASK (u8 remote_host)))
                      (payload_bytes 1 ch d)]).
Proof.
  destruct (ctrl_wf_update_args MAX c ch Hwf Hch) as (H256 & Hlen & Hr).
  cbn zeta. pose proof (LIMIT_s8_range delta) as Hd. pose proof (LIMIT_s8_zero delta) as Hz.
  unfold ctrl_adjust. rewrite (s8_small (LIMIT (-128) delta 127)) by lia.
  rewrite (u8_small ch) by lia.
  rewrite (update_spec c ch) by lia.
  destruct (Z.eqb_spec (LIMIT (-128) delta 127) 0) as [E | E]; cbn [negb];
    (do 2 eexists; split; [reflexivity|]; split; [reflexivity|]).
  - repeat split; try reflexivity; try lia. cbn. rewrite app_nil_r. reflexivity.
  - repeat split; try reflexivity; try lia.
    unfold send_update_request_rel. rewrite (u8_small ch) by lia.
    rewrite (s8_small (LIMIT (-128) delta 127)) by lia. reflexivity.
Qed.

Lemma ctrl_adjust_spec_witness :
  ctrl_wf 1 ctrl1 /\ 0 <= 0 < n_channels ctrl1 /\
  exists c', ctrl_adjust ctrl1 0 300 = Some c' /\
    enqueued (c_node c') = enqueued (c_node ctrl1) ++
      [mkPacket (Z.lor RF12_HDR_DST (Z.land RF12_HDR_MASK (u8 remote_host)))
                (payload_bytes 1 0 127)] /\
    c_level c' = [100].
Proof.
  assert (Hwf : ctrl_wf 1 ctrl1).
  { split; [reflexivity|]. split; [reflexivity|]. split; [reflexivity|].
    split; [cbn; lia|]. split; [lia|].
    intros i Hi. assert (i = 0) as -> by (cbn in Hi; lia).
    vm_compute. split; discriminate. }
  assert (Hch : 0 <= 0 < n_channels ctrl1) by (cbn; lia).
  split; [exact Hwf|]. split; [exact Hch|].
  destruct (ctrl_adjust_spec 1 ctrl1 0 300 Hwf Hch) as (c1 & c' & _ & E & _ & _ & L & _ & _ & Q).
  exists c'. split; [exact E|]. split; [exact Q | exact L].
Defined.

Lemma reset_loop_spec (m : nat) : forall (k : nat) c,
  Z.of_nat (k + m) <= n_channels c -> n_channels c <= 256 ->
  n_channels c <= Z.of_nat (length (c_level c)) ->
  (forall i, 0 <= i < n_channels c -> 0 <= at_ (c_range c) i <= 255) ->
  exists c', reset_loop c (seq k m) = Some c' /\
    c_node c' = c_node c /\ n_channels c' = n_channels c /\
    c_range c' = c_range c /\ c_data c' = c_data c /\
    length (c_level c') = length (c_level c) /\
    c_calls c' = c_calls c ++ map (fun i => expected_call c (Z.of_nat i) 0) (seq k m) /\
    (forall i, 0 <= i -> at_ (c_level c') i =
       if (Z.of_nat k <=? i) && (i <? Z.of_nat (k + m)) then 0 else at_ (c_level c) i).
Proof.
  induction m as [|m IH]; intros k c Hk H256 Hlen Hr.
  - exists c. cbn. rewrite app_nil_r. repeat split; try reflexivity.
    intros i Hi. destruct (Z.leb_spec (Z.of_nat k) i), (Z.ltb_spec i (Z.of_nat (k + 0)));
      cbn; lia || reflexivity.
  - cbn [seq reset_loop].
    rewrite (update_spec c (Z.of_nat k) 0) by (try apply Hr; lia).
    replace (LIMIT 0 0 (at_ (c_range c) (Z.of_nat k))) with 0
      by (unfold LIMIT; pose proof (Hr (Z.of_nat k) ltac:(lia));
          destruct (0 <? 0) eqn:?, (at_ (c_range c) (Z.of_nat k) <? 0) eqn:?; lia).
    set (c1 := mkCtrl _ _ _ _ _ _).
    destruct (IH (S k) c1) as (c' & E & Hn & Hc & Hrg & Hd & Hl & Hcalls & Hlv);
      try (cbn; lia); [cbn; rewrite length_upd; lia | cbn; exact Hr |].
    exists c'. rewrite E. split; [reflexivity|]. cbn in Hn, Hc, Hrg, Hd, Hl.
    repeat split; try assumption; [rewrite Hl; apply length_upd | |].
    + rewrite Hcalls. cbn [c_calls c1]. rewrite <- app_assoc. cbn [app]. f_equal.
      cbn [map]. f_equal.
      apply map_ext_in. intros i Hi. apply in_seq in Hi. unfold expected_call.
      cbn [c_range c_data c_level c1]. rewrite at_upd_ne by lia. reflexivity.
    + intros i Hi. rewrite Hlv by exact Hi. cbn [c_level c1].
      destruct (Z.eq_dec i (Z.of_nat k)) as [-> | Hne].
      * rewrite at_upd_eq by lia.
        destruct (Z.leb_spec (Z.of_nat (S k)) (Z.of_nat k)); [lia|].
        destruct (Z.leb_spec (Z.of_nat k) (Z.of_nat k)), (Z.ltb_spec (Z.of_nat k) (Z.of_nat (k + S m)));
          cbn; lia || reflexivity.
      * rewrite at_upd_ne by lia.
        destruct (Z.leb_spec (Z.of_nat (S k)) i), (Z.ltb_spec i (Z.of_nat (S k + m))),
                 (Z.leb_spec (Z.of_nat k) i), (Z.ltb_spec i (Z.of_nat (k + S m)));
          cbn; lia || reflexivity.
Qed.

(** C10: every cache write of the controller goes with exactly one
    notifier call carrying the old cached level and the new clamped
    level, made while the cache still holds the old level, also when the
    two levels are equal: for [set], [adjust], an accepted packet in
    [run], [add_channel] (whose old level is the freshly seeded one), and
    [wake_up(true)] (one call per channel, in channel order). *)
Theorem ctrl_notifier_every_write MAX c (Hwf : ctrl_wf MAX c) :
  (forall ch v, 0 <= ch < n_channels c ->
     exists c', ctrl_set c ch v = Some c' /\
       c_calls c' = c_calls c ++ [expected_call c ch (LIMIT 0 v (at_ (c_range c) ch))] /\
       at_ (c_level c') ch = LIMIT 0 v (at_ (c_range c) ch)) /\
  (forall ch delta, 0 <= ch < n_channels c ->
     let v := LIMIT 0 (at_ (c_level c) ch + delta) (at_ (c_range c) ch) in
     exists c', ctrl_adjust c ch delta = Some c' /\
       c_calls c' = c_calls c ++ [expected_call c ch v] /\ at_ (c_level c') ch = v) /\
  (forall r n' p, send_and_recv (c_node c) r = (n', Some p) ->
     channel p < n_channels c -> relative p = false ->
     let v := LIMIT 0 (abs_level p) (at_ (c_range c) (channel p)) in
     exists c', ctrl_run c r = Some c' /\
       c_calls c' = c_calls c ++ [expected_call c (channel p) v] /\
       at_ (c_level c') (channel p) = v) /\
  (forall r l d, n_channels c < MAX ->
     exists c', ctrl_add_channel MAX c r l d = Some c' /\
       c_calls c' = c_calls c ++
         [mkNotifyCall (n_channels c) (u8 r) (u8 d) (u8 l) (LIMIT 0 (u8 l) (u8 r)) (u8 l)] /\
       at_ (c_level c') (n_channels c) = LIMIT 0 (u8 l) (u8 r)) /\
  (exists c', ctrl_wake_up c true = Some c' /\
     c_calls c' = c_calls c ++
       map (fun i => expected_call c (Z.of_nat i) 0) (seq 0 (Z.to_nat (n_channels c))) /\
     forall i, 0 <= i < n_channels c -> at_ (c_level c') i = 0).
Proof.
  pose proof Hwf as (Hrl & Hll & Hdl & Hn & H256 & Hrg).
  split; [|split; [|split; [|split]]].
  - intros ch v Hch. destruct (ctrl_wf_update_args MAX c ch Hwf Hch) as (? & ? & ?).
    unfold ctrl_set. rewrite (update_spec c ch) by lia.
    eexists; split; [reflexivity|]. cbn. split; [reflexivity|]. apply at_upd_eq; lia.
  - intros ch delta Hch. cbn zeta.
    destruct (ctrl_adjust_spec_core MAX c ch delta Hwf Hch) as (c1 & c' & E1 & E2 & L & C & Lv).
    exists c'. split; [exact E2|]. rewrite (update_spec c ch) in E1 by
      (destruct (ctrl_wf_update_args MAX c ch Hwf Hch) as (? & ? & ?); lia).
    injection E1 as <-. rewrite C, Lv. split; [reflexivity|].
    apply at_upd_eq; lia.
  - intros r n' p Hr Hch Hrel. cbn zeta. pose proof (channel_range p).
    rewrite (ctrl_run_accepted c r n' p Hr Hch Hrel).
    rewrite (update_spec (ctrl_with_node c n')) by (cbn; try apply Hrg; lia).
    eexists; split; [reflexivity|]. cbn. split; [reflexivity|]. apply at_upd_eq; lia.
  - intros r l d Hlt. unfold ctrl_add_channel.
    destruct (Z.ltb_spec (n_channels c) MAX); [|lia].
    rewrite update_spec; cbn [n_channels c_range c_level c_data c_calls].
    + eexists; split; [reflexivity|]. cbn.
      rewrite !at_upd_eq by lia. split; [reflexivity|].
      rewrite at_upd_eq; [reflexivity | lia | rewrite length_upd; lia].
    + lia.
    + lia.
    + rewrite length_upd. lia.
    + rewrite at_upd_eq by lia. pose proof (u8_range r). lia.
  - unfold ctrl_wake_up. cbn [n_channels ctrl_with_node].
    destruct (reset_loop_spec (Z.to_nat (n_channels c)) 0 (ctrl_with_node c (node_wake_up (c_node c))))
      as (c' & E & _ & _ & _ & _ & _ & Hcalls & Hlv); cbn; try lia; [exact Hrg|].
    exists c'. split; [exact E|]. split; [exact Hcalls|].
    intros i Hi. rewrite Hlv by lia.
    destruct (Z.leb_spec (Z.of_nat 0) i), (Z.ltb_spec i (Z.of_nat (0 + Z.to_nat (n_channels c))));
      cbn; lia || reflexivity.
Qed.

Lemma ctrl1_wf : ctrl_wf 1 ctrl1.
Proof.
  split; [reflexivity|]. split; [reflexivity|]. split; [reflexivity|].
  split; [cbn; lia|]. split; [lia|].
  intros i Hi. assert (i = 0) as -> by (cbn in Hi; lia).
  vm_compute. split; discriminate.
Qed.

Lemma ctrl_notifier_every_write_witness :
  ctrl_wf 1 ctrl1 /\
  exists c', ctrl_wake_up ctrl1 true = Some c' /\
    c_calls c' = [expected_call ctrl1 0 0] /\ at_ (c_level c') 0 = 0.
Proof.
  split; [exact ctrl1_wf|].
  destruct (ctrl_notifier_every_write 1 ctrl1 ctrl1_wf) as (_ & _ & _ & _ & c' & E & Hc & Hl).
  exists c'. split; [exact E|]. split; [exact Hc|]. apply Hl. cbn; lia.
Defined.

(** [update] re-establishes the table invariant at the written channel. *)
Lemma update_fix MAX c ch v c' x :
  ctrl_wf MAX c ->
  (forall i, 0 <= i < n_channels c -> i <> u8 ch ->
     0 <= at_ (c_level c) i <= at_ (c_range c) i) ->
  update c ch v = Some (c', x) -> ctrl_inv MAX c'.
Proof.
  intros Hwf Hok Hu. pose proof Hwf as (Hrl & Hll & Hdl & Hn & H256 & Hrg).
  unfold update in Hu. destruct (Z.ltb_spec (u8 ch) (n_channels c)) as [Hlt|]; [|discriminate].
  injection Hu as <- _. pose proof (u8_range ch).
  split.
  - unfold ctrl_wf; cbn [c_range c_level c_data n_channels]. rewrite length_upd. split; [|split; [|split; [|split; [|split]]]]; try assumption; lia.
  - intros i Hi. cbn [c_range c_level c_data n_channels] in *. destruct (Z.eq_dec i (u8 ch)) as [-> | Hne].
    + rewrite at_upd_eq by lia. pose proof (Hrg (u8 ch) ltac:(lia)).
      pose proof (LIMIT_range v (at_ (c_range c) (u8 ch)) ltac:(lia)).
      rewrite u8_small by lia. lia.
    + rewrite at_upd_ne by lia. apply Hok; lia.
Qed.

Lemma update_inv MAX c ch v c' x :
  ctrl_inv MAX c -> update c ch v = Some (c', x) -> ctrl_inv MAX c'.
Proof. intros [Hwf Hok]. apply update_fix; [exact Hwf|]. intros i Hi _. apply Hok, Hi. Qed.

Lemma ctrl_with_node_inv MAX c n : ctrl_inv MAX c -> ctrl_inv MAX (ctrl_with_node c n).
Proof. intros H. exact H. Qed.

Lemma reset_loop_inv MAX is : forall c c',
  ctrl_inv MAX c -> reset_loop c is = Some c' -> ctrl_inv MAX c'.
Proof.
  induction is as [|i is IH]; intros c c' Hinv E; cbn in E.
  - injection E as <-. exact Hinv.
  - destruct (update c (Z.of_nat i) 0) as [[c1 x]|] eqn:Hu; [|discriminate].
    apply (IH c1); [apply (update_inv MAX c _ _ _ _ Hinv Hu) | exact E].
Qed.

Lemma ctrl_step_inv MAX c op c' :
  ctrl_inv MAX c -> ctrl_step MAX c op = Some c' -> ctrl_inv MAX c'.
Proof.
  intros Hinv E. destruct op as [r l d | ch v | ch v | ch | r | | reset]; cbn in E.
  - unfold ctrl_add_channel in E.
    destruct (Z.ltb_spec (n_channels c) MAX); [|discriminate].
    destruct (update _ _ _) as [[c2 x]|] eqn:Hu; [|discriminate].
    injection E as <-. apply ctrl_with_node_inv.
    destruct Hinv as [(Hrl & Hll & Hdl & Hn & H256 & Hrg) Hok].
    refine (update_fix MAX _ _ _ _ _ _ _ Hu).
    + unfold ctrl_wf; cbn [c_range c_level c_data n_channels]. rewrite !length_upd.
      split; [|split; [|split; [|split; [|split]]]]; try assumption; try lia.
      intros i Hi. destruct (Z.eq_dec i (n_channels c)) as [-> | Hne].
      * rewrite at_upd_eq by lia. pose proof (u8_range r). lia.
      * rewrite at_upd_ne by lia. apply Hrg; lia.
    + cbn [c_range c_level c_data n_channels]. intros i Hi Hne.
      rewrite (u8_small (n_channels c)) in Hne by lia.
      rewrite !at_upd_ne by lia. apply Hok; lia.
  - unfold ctrl_set in E. destruct (update c ch v) as [[c1 x]|] eqn:Hu; [|discriminate].
    injection E as <-. apply ctrl_with_node_inv, (update_inv MAX c _ _ _ _ Hinv Hu).
  - unfold ctrl_adjust in E. destruct (update c _ _) as [[c1 x]|] eqn:Hu; [|discriminate].
    pose proof (update_inv MAX c _ _ _ _ Hinv Hu).
    destruct (negb _); injection E as <-; [apply ctrl_with_node_inv|]; assumption.
  - injection E as <-. apply ctrl_with_node_inv, Hinv.
  - unfold ctrl_run in E. destruct (send_and_recv (c_node c) r) as [n' [p|]].
    + destruct (n_channels _ <=? channel p); [injection E as <-; apply Hinv|].
      destruct (relative p); [injection E as <-; apply Hinv|].
      destruct (update _ _ _) as [[c2 x]|] eqn:Hu; [|discriminate].
      injection E as <-. exact (update_inv MAX _ _ _ _ _ (ctrl_with_node_inv MAX c n' Hinv) Hu).
    + injection E as <-. apply Hinv.
  - injection E as <-. apply Hinv.
  - unfold ctrl_wake_up in E. destruct reset.
    + exact (reset_loop_inv MAX _ _ _ (ctrl_with_node_inv MAX c _ Hinv) E).
    + injection E as <-. apply Hinv.
Qed.

Lemma ctrl_exec_inv MAX ops : forall c c',
  ctrl_inv MAX c -> ctrl_exec MAX c ops = Some c' -> ctrl_inv MAX c'.
Proof.
  induction ops as [|op ops IH]; intros c c' Hinv E; cbn in E.
  - injection E as <-. exact Hinv.
  - destruct (ctrl_step MAX c op) as [c1|] eqn:Hs; [|discriminate].
    exact (IH c1 c' (ctrl_step_inv MAX c op c1 Hinv Hs) E).
Qed.

(** [set] with a range-respecting filter re-establishes the table
    invariant at the written channel. *)
Lemma host_set_fix MAX flt h ch v h' :
  filter_respects_range flt -> host_wf MAX h ->
  (forall i, 0 <= i < num_channels h -> i <> u8 ch ->
     0 <= at_ (h_level h) i <= at_ (h_range h) i) ->
  host_set flt h ch v = Some h' -> host_inv MAX h'.
Proof.
  intros Hflt Hwf Hok Hs. pose proof Hwf as (Hrl & Hll & Hdl & Hn & H256 & Hrg).
  unfold host_set in Hs. destruct (Z.ltb_spec (u8 ch) (num_channels h)) as [Hlt|]; [|discriminate].
  injection Hs as <-. pose proof (u8_range ch).
  split.
  - unfold host_wf; cbn [h_range h_level h_data num_channels]. rewrite length_upd.
    split; [|split; [|split; [|split; [|split]]]]; try assumption; lia.
  - intros i Hi. cbn [h_range h_level h_data num_channels] in *.
    destruct (Z.eq_dec i (u8 ch)) as [-> | Hne].
    + rewrite at_upd_eq by lia. pose proof (Hrg (u8 ch) ltac:(lia)).
      pose proof (LIMIT_range v (at_ (h_range h) (u8 ch)) ltac:(lia)).
      split; [apply u8_range | apply Hflt; lia].
    + rewrite at_upd_ne by lia. apply Hok; lia.
Qed.

Lemma host_set_inv MAX flt h ch v h' :
  filter_respects_range flt -> host_inv MAX h -> host_set flt h ch v = Some h' -> host_inv MAX h'.
Proof.
  intros Hflt [Hwf Hok]. apply (host_set_fix MAX flt h ch v h' Hflt Hwf).
  intros i Hi _. apply Hok, Hi.
Qed.

Lemma host_step_inv MAX flt h op h' :
  filter_respects_range flt -> host_inv MAX h ->
  host_step MAX flt h op = Some h' -> host_inv MAX h'.
Proof.
  intros Hflt Hinv E. destruct op as [r l d | ch v | ch v | r]; cbn in E.
  - unfold host_add_channel in E.
    destruct (Z.ltb_spec (num_channels h) MAX); [|discriminate].
    destruct Hinv as [(Hrl & Hll & Hdl & Hn & H256 & Hrg) Hok].
    refine (host_set_fix MAX flt _ _ _ _ Hflt _ _ E).
    + unfold host_wf; cbn [h_range h_level h_data num_channels]. rewrite !length_upd.
      split; [|split; [|split; [|split; [|split]]]]; try assumption; try lia.
      intros i Hi. destruct (Z.eq_dec i (num_channels h)) as [-> | Hne].
      * rewrite at_upd_eq by lia. pose proof (u8_range r). lia.
      * rewrite at_upd_ne by lia. apply Hrg; lia.
    + cbn [h_range h_level h_data num_channels]. intros i Hi Hne.
      rewrite (u8_small (num_channels h)) in Hne by lia.
      rewrite at_upd_ne by lia. apply Hok; lia.
  - exact (host_set_inv MAX flt h ch v h' Hflt Hinv E).
  - exact (host_set_inv MAX flt h _ _ h' Hflt Hinv E).
  - unfold host_run in E. destruct (send_and_recv (h_node h) r) as [n' [p|]].
    + destruct (num_channels _ <=? channel p); [injection E as <-; apply Hinv|].
      destruct (relative p); unfold host_adjust in E;
        exact (host_set_inv MAX flt (host_with_node h n') _ _ h' Hflt Hinv E).
    + injection E as <-. apply Hinv.
Qed.

Lemma host_exec_inv MAX flt ops : forall h h',
  filter_respects_range flt -> host_inv MAX h ->
  host_exec MAX flt h ops = Some h' -> host_inv MAX h'.
Proof.
  induction ops as [|op ops IH]; intros h h' Hflt Hinv E; cbn in E.
  - injection E as <-. exact Hinv.
  - destruct (host_step MAX flt h op) as [h1|] eqn:Hs; [|discriminate].
    exact (IH h1 h' Hflt (host_step_inv MAX flt h op h1 Hflt Hinv Hs) E).
Qed.

(** C1 (as stated, refuted): a host whose filter returns 200 for a channel
    registered with range 100 stores level 200 > range. *)
Lemma host_filter_breaks_range :
  exists h, host_exec 1 (fun _ _ _ _ _ _ => 200)
              (host_init (node_init buf0 2) [0] [0] [0]) [HAddChannel 100 0 0] = Some h /\
    at_ (h_level h) 0 = 200 /\ at_ (h_range h) 0 = 100 /\ ~ host_table_ok h.
Proof.
  eexists. split; [reflexivity|]. split; [reflexivity|]. split; [reflexivity|].
  intros Hok. specialize (Hok 0 ltac:(vm_compute; split; [discriminate | reflexivity])).
  vm_compute in Hok. destruct Hok as [_ Hok]. apply Hok. reflexivity.
Qed.

(** C1 (amended): starting from a freshly constructed host or controller
    (channel count 0, arrays of the configured size at most 256, any
    contents), after every sequence of public calls and received frames
    the controller's table satisfies [0 <= level <= range] for every
    channel, and so does the host's table provided its filter keeps the
    documented contract of returning a value within [0..range]. *)
Theorem table_invariant :
  (forall MAX flt nd rg lv dt ops h,
     0 <= MAX <= 256 ->
     length rg = Z.to_nat MAX -> length lv = Z.to_nat MAX -> length dt = Z.to_nat MAX ->
     filter_respects_range flt ->
     host_exec MAX flt (host_init nd rg lv dt) ops = Some h -> host_table_ok h) /\
  (forall MAX nd rg lv dt ops c,
     0 <= MAX <= 256 ->
     length rg = Z.to_nat MAX -> length lv = Z.to_nat MAX -> length dt = Z.to_nat MAX ->
     ctrl_exec MAX (ctrl_init nd rg lv dt) ops = Some c -> ctrl_table_ok c).
Proof.
  split.
  - intros MAX flt nd rg lv dt ops h HM Hr Hl Hd Hflt E.
    refine (proj2 (host_exec_inv MAX flt ops _ h Hflt _ E)).
    split; [split; [exact Hr|]; split; [exact Hl|]; split; [exact Hd|]; cbn; split; [lia|];
            split; [lia|]; intros; lia|].
    intros i Hi. cbn in Hi. lia.
  - intros MAX nd rg lv dt ops c HM Hr Hl Hd E.
    refine (proj2 (ctrl_exec_inv MAX ops _ c _ E)).
    split; [split; [exact Hr|]; split; [exact Hl|]; split; [exact Hd|]; cbn; split; [lia|];
            split; [lia|]; intros; lia|].
    intros i Hi. cbn in Hi. lia.
Qed.

Lemma table_invariant_witness :
  filter_respects_range pass_filter /\
  (exists h, host_exec 1 pass_filter (host_init (node_init buf0 2) [0] [0] [0])
               [HAddChannel 100 40 0; HAdjust 0 300] = Some h /\ host_table_ok h) /\
  (exists c, ctrl_exec 1 (ctrl_init (node_init buf0 9) [0] [0] [0])
               [CAddChannel 100 240 0; CWake true] = Some c /\ ctrl_table_ok c).
Proof.
  assert (Hf : filter_respects_range pass_filter).
  { intros hist c r d o n Hn. unfold pass_filter, u8.
    pose proof (Z.mod_le n 256 ltac:(lia) ltac:(lia)). lia. }
  split; [exact Hf|]. split.
  - eexists. split; [reflexivity|].
    refine (proj1 table_invariant 1 pass_filter _ [0] [0] [0]
              [HAddChannel 100 40 0; HAdjust 0 300] _ _ _ _ _ Hf _);
      [lia | reflexivity | reflexivity | reflexivity | reflexivity].
  - eexists. split; [reflexivity|].
    refine (proj2 table_invariant 1 _ [0] [0] [0]
              [CAddChannel 100 240 0; CWake true] _ _ _ _ _ _);
      [lia | reflexivity | reflexivity | reflexivity | reflexivity].
Defined.

(* ================================================================== *)
(** * Further properties of the code *)








Lemma send_and_recv_bad n r :
  recvDone r = false \/ rf12_crc r <> 0 \/ length (rf12_data r) <> 2%nat ->
  send_and_recv n r = (fst (send_and_recv n r), None).
Proof.
  intros Hbad. unfold send_and_recv. cbv zeta.
  destruct (recvDone r); [|reflexivity].
  destruct (Z.eqb_spec (rf12_crc r) 0); cbn [negb]; [|reflexivity].
  destruct (Z.eqb_spec (Z.of_nat (length (rf12_data r))) 2); cbn [negb]; [|reflexivity].
  exfalso. destruct Hbad as [H|[H|H]]; [discriminate H|lia|lia].
Qed.

(** [send_and_recv] hands no packet up for a frame that is not complete,
    fails its CRC, or is not exactly two bytes long; [run] of the host and
    of the controller then changes nothing but the send queue: no table
    entry, no filter or notifier call. *)
Theorem bad_frame_ignored flt h c r
  (Hbad : recvDone r = false \/ rf12_crc r <> 0 \/ length (rf12_data r) <> 2%nat) :
  (forall n, snd (send_and_recv n r) = None) /\
  host_run flt h r = Some (host_with_node h (fst (send_and_recv (h_node h) r))) /\
  ctrl_run c r = Some (ctrl_with_node c (fst (send_and_recv (c_node c) r))).
Proof.
  split; [intros n; rewrite (send_and_recv_bad n r Hbad); reflexivity|].
  unfold host_run, ctrl_run.
  rewrite (send_and_recv_bad (h_node h) r Hbad), (send_and_recv_bad (c_node c) r Hbad).
  split; reflexivity.
Qed.

Lemma bad_frame_ignored_witness :
  host_run pass_filter host1 (mkRadio false true 1 2 [5; 7]) = Some host1 /\
  ctrl_run ctrl1 (mkRadio false true 0 2 [0; 7; 9]) = Some ctrl1.
Proof.
  split.
  - assert (Hb : recvDone (mkRadio false true 1 2 [5; 7]) = false \/
                 rf12_crc (mkRadio false true 1 2 [5; 7]) <> 0 \/
                 length (rf12_data (mkRadio false true 1 2 [5; 7])) <> 2%nat)
      by (right; left; cbn; lia).
    destruct (bad_frame_ignored pass_filter host1 ctrl1 _ Hb) as (_ & E & _).
    rewrite E. vm_compute. reflexivity.
  - assert (Hb : recvDone (mkRadio false true 0 2 [0; 7; 9]) = false \/
                 rf12_crc (mkRadio false true 0 2 [0; 7; 9]) <> 0 \/
                 length (rf12_data (mkRadio false true 0 2 [0; 7; 9])) <> 2%nat)
      by (right; right; cbn; lia).
    destruct (bad_frame_ignored pass_filter host1 ctrl1 _ Hb) as (_ & _ & E).
    rewrite E. vm_compute. reflexivity.
Defined.

Lemma land_mask_dst x : Z.land (Z.land RF12_HDR_MASK x) RF12_HDR_DST = 0.
Proof.
  unfold RF12_HDR_MASK, RF12_HDR_DST.
  rewrite Z.land_comm, Z.land_assoc. change (Z.land 64 31) with 0. apply Z.land_0_l.
Qed.

Lemma land_mask_mask x : Z.land (Z.land RF12_HDR_MASK x) RF12_HDR_MASK = Z.land x RF12_HDR_MASK.
Proof.
  rewrite Z.land_comm, Z.land_assoc, Z.land_diag. apply Z.land_comm.
Qed.

(** Header addressing: a status update leaves as a broadcast (DST bit
    clear) naming the sender's node id (its low five bits), an update
    request as a directed packet (DST bit set) naming the host's id. *)
Theorem header_addressing n host ch v :
  let q (p : Packet) := mkRecv (hdr p) (b p) in
  bcast (q (status_update_packet n ch v)) = true /\
  node_of (q (status_update_packet n ch v)) = Z.land (rf12_node n) RF12_HDR_MASK /\
  (forall rel : bool, exists p,
     enqueued (if rel then send_update_request_rel n host ch v
               else send_update_request_abs n host ch v) = enqueued n ++ [p] /\
     bcast (q p) = false /\ node_of (q p) = Z.land (u8 host) RF12_HDR_MASK).
Proof.
  cbn zeta. unfold bcast, node_of, status_update_packet. cbn [hdr rp_h].
  rewrite land_mask_dst, land_mask_mask. split; [reflexivity|]. split; [reflexivity|].
  intros rel. destruct rel; eexists; (split; [reflexivity|]); cbn [hdr rp_h];
    rewrite !Z.land_lor_distr_l, land_mask_dst, land_mask_mask;
    unfold RF12_HDR_DST, RF12_HDR_MASK; split; reflexivity.
Qed.

(** A [set] or [adjust] of the host fails (the assert) exactly when
    [get] of that channel fails; after a successful [set], [get] returns
    the filter's answer for the clamped value and every other channel
    reads as before. *)
Theorem host_set_get flt h ch v
  (Hlen : num_channels h <= Z.of_nat (length (h_level h))) :
  (host_set flt h ch v = None <-> host_get h ch = None) /\
  (host_adjust flt h ch v = None <-> host_get h ch = None) /\
  forall h', host_set flt h ch v = Some h' ->
    let c := u8 ch in
    let r := at_ (h_range h) c in
    host_get h' ch =
      Some (u8 (flt (h_calls h) c r (at_ (h_data h) c) (at_ (h_level h) c) (LIMIT 0 v r))) /\
    forall ch2, u8 ch2 <> c -> host_get h' ch2 = host_get h ch2.
Proof.
  unfold host_adjust, host_set, host_get.
  pose proof (u8_range ch) as Hc.
  destruct (Z.ltb_spec (u8 ch) (num_channels h)).
  - split; [split; discriminate|]. split; [split; discriminate|].
    intros h' E. injection E as <-. cbn zeta. cbn [num_channels h_level].
    destruct (Z.ltb_spec (u8 ch) (num_channels h)); [|lia].
    split; [rewrite at_upd_eq by lia; reflexivity|].
    intros ch2 Hne. pose proof (u8_range ch2).
    destruct (u8 ch2 <? num_channels h); [|reflexivity].
    rewrite at_upd_ne by lia. reflexivity.
  - split; [tauto|]. split; [tauto|]. discriminate.
Qed.

Lemma host_set_get_witness :
  host_set pass_filter host1 4 1 = None /\
  exists h', host_set pass_filter host1 0 130 = Some h' /\ host_get h' 0 = Some 100.
Proof.
  split.
  - destruct (host_set_get pass_filter host1 4 1 ltac:(cbn; lia)) as ((_ & H) & _).
    apply H. reflexivity.
  - destruct (host_set_get pass_filter host1 0 130 ltac:(cbn; lia)) as (_ & _ & H).
    eexists; split; [reflexivity|].
    destruct (H _ eq_refl) as (E & _). rewrite E. reflexivity.
Defined.

Lemma u8_u8 x : u8 (u8 x) = u8 x.
Proof. apply u8_small, u8_range. Qed.

(** The controller's [set] and [adjust] fail (the assert in [update])
    exactly when [get] of that channel fails.  After a successful [set],
    [get] returns the clamped value, every other channel reads as before,
    and the one packet handed to the node is the directed absolute
    request to the host carrying that value. *)
Theorem ctrl_set_get c ch v
  (Hlen : n_channels c <= Z.of_nat (length (c_level c))) :
  (ctrl_set c ch v = None <-> ctrl_get c ch = None) /\
  (ctrl_adjust c ch v = None <-> ctrl_get c ch = None) /\
  forall c', ctrl_set c ch v = Some c' ->
    let x := u8 (LIMIT 0 v (at_ (c_range c) (u8 ch))) in
    ctrl_get c' ch = Some x /\
    (forall ch2, u8 ch2 <> u8 ch -> ctrl_get c' ch2 = ctrl_get c ch2) /\
    enqueued (c_node c') = enqueued (c_node c) ++
      [mkPacket (Z.lor RF12_HDR_DST (Z.land RF12_HDR_MASK (u8 remote_host)))
                (payload_bytes 0 (u8 ch) x)].
Proof.
  unfold ctrl_set, ctrl_adjust, update, ctrl_get.
  pose proof (u8_range ch) as Hc.
  destruct (Z.ltb_spec (u8 ch) (n_channels c)).
  - split; [split; discriminate|].
    split; [split; [destruct (negb _); discriminate | discriminate]|].
    intros c' E. injection E as <-. cbn zeta. cbn [n_channels c_level c_node ctrl_with_node].
    destruct (Z.ltb_spec (u8 ch) (n_channels c)); [|lia].
    split; [rewrite at_upd_eq by lia; reflexivity|]. split.
    + intros ch2 Hne. pose proof (u8_range ch2).
      destruct (u8 ch2 <? n_channels c); [|reflexivity].
      rewrite at_upd_ne by lia. reflexivity.
    + unfold send_update_request_abs. rewrite enqueued_send_packet, !u8_u8. reflexivity.
  - split; [tauto|]. split; [tauto|]. discriminate.
Qed.

Lemma ctrl_set_get_witness :
  ctrl_adjust ctrl1 3 1 = None /\
  exists c', ctrl_set ctrl1 0 (-7) = Some c' /\ ctrl_get c' 0 = Some 0.
Proof.
  split.
  - destruct (ctrl_set_get ctrl1 3 1 ltac:(cbn; lia)) as (_ & (_ & H) & _).
    apply H. reflexivity.
  - destruct (ctrl_set_get ctrl1 0 (-7) ltac:(cbn; lia)) as (_ & _ & H).
    eexists; split; [reflexivity|].
    destruct (H _ eq_refl) as (E & _). rewrite E. reflexivity.
Defined.

Lemma host_set_call flt h ch v h' :
  (forall i, 0 <= i < num_channels h -> 0 <= at_ (h_range h) i <= 255) ->
  host_set flt h ch v = Some h' ->
  (exists k, h_calls h' = h_calls h ++ [k] /\ filter_call_ok k) /\
  h_range h' = h_range h /\ num_channels h' = num_channels h /\ h_data h' = h_data h /\
  length (h_level h') = length (h_level h).
Proof.
  intros Hrg Hs. unfold host_set in Hs.
  destruct (Z.ltb_spec (u8 ch) (num_channels h)); [|discriminate].
  injection Hs as <-. cbn [h_calls h_range num_channels h_data h_level].
  rewrite length_upd. split; [|auto].
  eexists; split; [reflexivity|]. unfold filter_call_ok; cbn [fc_new fc_range].
  pose proof (u8_range ch). pose proof (Hrg (u8 ch) ltac:(lia)).
  pose proof (LIMIT_range v (at_ (h_range h) (u8 ch)) ltac:(lia)). lia.
Qed.

Lemma host_step_calls MAX flt h op h' :
  host_wf MAX h -> Forall filter_call_ok (h_calls h) ->
  host_step MAX flt h op = Some h' ->
  host_wf MAX h' /\ Forall filter_call_ok (h_calls h').
Proof.
  intros Hwf Hc E.
  assert (Hset : forall h0 ch v h1, host_wf MAX h0 -> Forall filter_call_ok (h_calls h0) ->
            host_set flt h0 ch v = Some h1 ->
            host_wf MAX h1 /\ Forall filter_call_ok (h_calls h1)).
  { intros h0 ch v h1 Hw0 Hc0 Hs.
    pose proof Hw0 as (Hrl & Hll & Hdl & Hn & H256 & Hrg).
    destruct (host_set_call flt h0 ch v h1 Hrg Hs) as ((k & Ek & Hk) & Er & En & Ed & El).
    split.
    - unfold host_wf. rewrite Er, En, Ed, El. tauto.
    - rewrite Ek. apply Forall_app. split; [exact Hc0 | constructor; [exact Hk | constructor]]. }
  destruct op as [r l d | ch v | ch v | r]; cbn in E.
  - unfold host_add_channel in E. destruct (Z.ltb_spec (num_channels h) MAX); [|discriminate].
    pose proof Hwf as (Hrl & Hll & Hdl & Hn & H256 & Hrg).
    refine (Hset _ _ _ _ _ _ E); [|exact Hc].
    unfold host_wf; cbn [h_range h_level h_data num_channels]. rewrite !length_upd.
    split; [|split; [|split; [|split; [|split]]]]; try assumption; try lia.
    intros i Hi. destruct (Z.eq_dec i (num_channels h)) as [-> | Hne].
    + rewrite at_upd_eq by lia. pose proof (u8_range r). lia.
    + rewrite at_upd_ne by lia. apply Hrg; lia.
  - exact (Hset h ch v h' Hwf Hc E).
  - exact (Hset h _ _ h' Hwf Hc E).
  - unfold host_run in E. destruct (send_and_recv (h_node h) r) as [n' [p|]].
    + destruct (num_channels _ <=? channel p); [injection E as <-; split; assumption|].
      destruct (relative p); unfold host_adjust in E;
        exact (Hset (host_with_node h n') _ _ h' Hwf Hc E).
    + injection E as <-. split; assumption.
Qed.

Lemma host_exec_calls MAX flt ops : forall h h',
  host_wf MAX h -> Forall filter_call_ok (h_calls h) ->
  host_exec MAX flt h ops = Some h' -> Forall filter_call_ok (h_calls h').
Proof.
  induction ops as [|op ops IH]; intros h h' Hwf Hc E; cbn in E.
  - injection E as <-. exact Hc.
  - destruct (host_step MAX flt h op) as [h1|] eqn:Hs; [|discriminate].
    destruct (host_step_calls MAX flt h op h1 Hwf Hc Hs) as [Hw1 Hc1].
    exact (IH h1 h' Hw1 Hc1 E).
Qed.

(** Whatever the filter does (even one that breaks the contract of
    rcn_host.h), every value the host proposes to it, in [set],
    [adjust], [add_channel] and [run], is the candidate [LIMIT(0, value,
    range)], within the channel's range, itself a byte. *)
Theorem filter_proposals_in_range MAX flt nd rg lv dt ops h
  (HM : 0 <= MAX <= 256)
  (Hr : length rg = Z.to_nat MAX) (Hl : length lv = Z.to_nat MAX)
  (Hd : length dt = Z.to_nat MAX)
  (E : host_exec MAX flt (host_init nd rg lv dt) ops = Some h) :
  Forall filter_call_ok (h_calls h).
Proof.
  refine (host_exec_calls MAX flt ops (host_init nd rg lv dt) h _ (List.Forall_nil _) E).
  split; [exact Hr|]. split; [exact Hl|]. split; [exact Hd|]. cbn.
  split; [lia|]. split; [lia|]. intros; lia.
Qed.

Lemma filter_proposals_in_range_witness :
  exists h, host_exec 1 (fun _ _ _ _ _ _ => 200) (host_init (node_init buf0 2) [0] [0] [0])
              [HAddChannel 100 40 0; HSet 0 500; HAdjust 0 (-300)] = Some h /\
            Forall filter_call_ok (h_calls h).
Proof.
  destruct (host_exec 1 (fun _ _ _ _ _ _ => 200) (host_init (node_init buf0 2) [0] [0] [0])
              [HAddChannel 100 40 0; HSet 0 500; HAdjust 0 (-300)])
    as [h|] eqn:E; [|vm_compute in E; discriminate E].
  exists h. split; [reflexivity|].
  refine (filter_proposals_in_range 1 (fun _ _ _ _ _ _ => 200) _ [0] [0] [0]
            [HAddChannel 100 40 0; HSet 0 500; HAdjust 0 (-300)] _ _ _ _ _ E);
    [lia | reflexivity | reflexivity | reflexivity].
Defined.

Lemma update_call c ch v c' x :
  (forall i, 0 <= i < n_channels c -> 0 <= at_ (c_range c) i <= 255) ->
  update c ch v = Some (c', x) ->
  (exists k, c_calls c' = c_calls c ++ [k] /\ notify_call_ok k) /\
  c_range c' = c_range c /\ n_channels c' = n_channels c.
Proof.
  intros Hrg Hu. unfold update in Hu.
  destruct (Z.ltb_spec (u8 ch) (n_channels c)); [|discriminate].
  injection Hu as <- _. cbn [c_calls c_range n_channels].
  split; [|auto]. eexists; split; [reflexivity|]. unfold notify_call_ok; cbn [nc_new nc_range].
  pose proof (u8_range ch). pose proof (Hrg (u8 ch) ltac:(lia)).
  pose proof (LIMIT_range v (at_ (c_range c) (u8 ch)) ltac:(lia)).
  rewrite u8_small by lia. lia.
Qed.

Lemma update_calls_ok c ch v c' x :
  (forall i, 0 <= i < n_channels c -> 0 <= at_ (c_range c) i <= 255) ->
  Forall notify_call_ok (c_calls c) ->
  update c ch v = Some (c', x) -> Forall notify_call_ok (c_calls c').
Proof.
  intros Hrg Hc Hu. destruct (update_call c ch v c' x Hrg Hu) as ((k & Ek & Hk) & _).
  rewrite Ek. apply Forall_app. split; [exact Hc | constructor; [exact Hk | constructor]].
Qed.

Lemma reset_loop_calls is : forall c c',
  (forall i, 0 <= i < n_channels c -> 0 <= at_ (c_range c) i <= 255) ->
  Forall notify_call_ok (c_calls c) ->
  reset_loop c is = Some c' -> Forall notify_call_ok (c_calls c').
Proof.
  induction is as [|i is IH]; intros c c' Hrg Hc E; cbn in E.
  - injection E as <-. exact Hc.
  - destruct (update c (Z.of_nat i) 0) as [[c1 x]|] eqn:Hu; [|discriminate].
    destruct (update_call c _ _ c1 x Hrg Hu) as (_ & Er & En).
    apply (IH c1); [rewrite Er, En; exact Hrg | exact (update_calls_ok c _ _ c1 x Hrg Hc Hu) | exact E].
Qed.

Lemma ctrl_step_calls MAX c op c' :
  ctrl_inv MAX c -> Forall notify_call_ok (c_calls c) ->
  ctrl_step MAX c op = Some c' -> Forall notify_call_ok (c_calls c').
Proof.
  intros Hinv Hc E. pose proof Hinv as [(Hrl & Hll & Hdl & Hn & H256 & Hrg) _].
  destruct op as [r l d | ch v | ch v | ch | r | | reset]; cbn in E.
  - unfold ctrl_add_channel in E.
    destruct (Z.ltb_spec (n_channels c) MAX); [|discriminate].
    destruct (update _ _ _) as [[c2 x]|] eqn:Hu; [|discriminate].
    injection E as <-. refine (update_calls_ok _ _ _ _ _ _ _ Hu); [|exact Hc].
    cbn [c_range n_channels]. intros i Hi.
    destruct (Z.eq_dec i (n_channels c)) as [-> | Hne].
    + rewrite at_upd_eq by lia. pose proof (u8_range r). lia.
    + rewrite at_upd_ne by lia. apply Hrg; lia.
  - unfold ctrl_set in E. destruct (update c ch v) as [[c1 x]|] eqn:Hu; [|discriminate].
    injection E as <-. exact (update_calls_ok c _ _ c1 x Hrg Hc Hu).
  - unfold ctrl_adjust in E. destruct (update c _ _) as [[c1 x]|] eqn:Hu; [|discriminate].
    pose proof (update_calls_ok c _ _ c1 x Hrg Hc Hu).
    destruct (negb _); injection E as <-; assumption.
  - injection E as <-. exact Hc.
  - unfold ctrl_run in E. destruct (send_and_recv (c_node c) r) as [n' [p|]].
    + destruct (n_channels _ <=? channel p); [injection E as <-; exact Hc|].
      destruct (relative p); [injection E as <-; exact Hc|].
      destruct (update _ _ _) as [[c2 x]|] eqn:Hu; [|discriminate].
      injection E as <-. exact (update_calls_ok (ctrl_with_node c n') _ _ c2 x Hrg Hc Hu).
    + injection E as <-. exact Hc.
  - injection E as <-. exact Hc.
  - unfold ctrl_wake_up in E. destruct reset.
    + exact (reset_loop_calls _ (ctrl_with_node c _) _ Hrg Hc E).
    + injection E as <-. exact Hc.
Qed.

Lemma ctrl_exec_calls MAX ops : forall c c',
  ctrl_inv MAX c -> Forall notify_call_ok (c_calls c) ->
  ctrl_exec MAX c ops = Some c' -> Forall notify_call_ok (c_calls c').
Proof.
  induction ops as [|op ops IH]; intros c c' Hinv Hc E; cbn in E.
  - injection E as <-. exact Hc.
  - destruct (ctrl_step MAX c op) as [c1|] eqn:Hs; [|discriminate].
    exact (IH c1 c' (ctrl_step_inv MAX c op c1 Hinv Hs) (ctrl_step_calls MAX c op c1 Hinv Hc Hs) E).
Qed.

(** Every level the controller reports to its notifier, from [set],
    [adjust], [add_channel], [run] and the reset of [wake_up], is a
    clamped value within the channel's range, itself a byte. *)
Theorem notifier_values_in_range MAX nd rg lv dt ops c
  (HM : 0 <= MAX <= 256)
  (Hr : length rg = Z.to_nat MAX) (Hl : length lv = Z.to_nat MAX)
  (Hd : length dt = Z.to_nat MAX)
  (E : ctrl_exec MAX (ctrl_init nd rg lv dt) ops = Some c) :
  Forall notify_call_ok (c_calls c).
Proof.
  refine (ctrl_exec_calls MAX ops (ctrl_init nd rg lv dt) c _ (List.Forall_nil _) E).
  split; [split; [exact Hr|]; split; [exact Hl|]; split; [exact Hd|]; cbn; split; [lia|];
          split; [lia|]; intros; lia|].
  intros i Hi. cbn in Hi. lia.
Qed.

Lemma notifier_values_in_range_witness :
  exists c, ctrl_exec 1 (ctrl_init (node_init buf0 9) [0] [0] [0])
              [CAddChannel 100 240 0; CSet 0 500; CAdjust 0 (-300); CWake true] = Some c /\
            Forall notify_call_ok (c_calls c).
Proof.
  destruct (ctrl_exec 1 (ctrl_init (node_init buf0 9) [0] [0] [0])
              [CAddChannel 100 240 0; CSet 0 500; CAdjust 0 (-300); CWake true])
    as [c|] eqn:E; [|vm_compute in E; discriminate E].
  exists c. split; [reflexivity|].
  refine (notifier_values_in_range 1 _ [0] [0] [0]
            [CAddChannel 100 240 0; CSet 0 500; CAdjust 0 (-300); CWake true] _ _ _ _ _ E);
    [lia | reflexivity | reflexivity | reflexivity].
Defined.

(** [RCN_Host::add_channel] on a host with room: the channel count grows
    by one, the filter is called once, with the clamped seed level as the
    proposal and, as the old level, whatever the level slot held before;
    the filter's answer is stored and broadcast once. *)
Theorem host_add_channel_spec MAX flt h r l d
  (Hwf : host_wf MAX h) (Hroom : num_channels h < MAX) :
  let ch := num_channels h in
  let cand := LIMIT 0 (u8 l) (u8 r) in
  let nl := u8 (flt (h_calls h) ch (u8 r) (u8 d) (at_ (h_level h) ch) cand) in
  exists h', host_add_channel MAX flt h r l d = Some h' /\
    num_channels h' = ch + 1 /\
    h_calls h' = h_calls h ++ [mkFilterCall ch (u8 r) (u8 d) (at_ (h_level h) ch) cand] /\
    host_get h' ch = Some nl /\
    enqueued (h_node h') = enqueued (h_node h) ++ [status_update_packet (h_node h) ch nl].
Proof.
  cbn zeta. pose proof Hwf as (Hrl & Hll & Hdl & Hn & H256 & Hrg).
  unfold host_add_channel, host_set.
  destruct (Z.ltb_spec (num_channels h) MAX); [|lia].
  cbn [num_channels h_range h_level h_data h_calls h_node].
  rewrite (u8_small (num_channels h)) by lia.
  destruct (Z.ltb_spec (num_channels h) (num_channels h + 1)); [|lia].
  rewrite !at_upd_eq by lia.
  eexists. split; [reflexivity|]. cbn [num_channels h_calls h_level h_node].
  split; [reflexivity|]. split; [reflexivity|]. split.
  - unfold host_get. cbn [num_channels h_level].
    rewrite (u8_small (num_channels h)) by lia.
    destruct (Z.ltb_spec (num_channels h) (num_channels h + 1)); [|lia].
    rewrite at_upd_eq by lia. reflexivity.
  - apply enqueued_send_packet.
Qed.

Lemma host_add_channel_spec_witness :
  exists h', host_add_channel 2 pass_filter
               (mkHost (node_init buf0 2) 1 [100; 0] [40; 77] [0; 0] []) 50 90 3 = Some h' /\
    host_get h' 1 = Some 50 /\
    h_calls h' = [mkFilterCall 1 50 3 77 50].
Proof.
  assert (Hwf : host_wf 2 (mkHost (node_init buf0 2) 1 [100; 0] [40; 77] [0; 0] [])).
  { split; [reflexivity|]. split; [reflexivity|]. split; [reflexivity|].
    split; [cbn; lia|]. split; [lia|].
    intros i Hi. assert (i = 0) as -> by (cbn in Hi; lia). vm_compute. split; discriminate. }
  destruct (host_add_channel_spec 2 pass_filter _ 50 90 3 Hwf ltac:(cbn; lia))
    as (h' & E & _ & Hc & Hg & _).
  exists h'. split; [exact E|]. split; [exact Hg | exact Hc].
Defined.

(** [RCN_Controller::add_channel] on a controller with room: the channel
    count grows by one, the cache holds the seed level clamped to the
    range, the notifier is called once with the unclamped seed as the old
    level (written before [update] runs), and the one packet handed to the
    node is a status request for the new channel, directed to the host. *)
Theorem ctrl_add_channel_spec MAX c r l d
  (Hwf : ctrl_wf MAX c) (Hroom : n_channels c < MAX) :
  let ch := n_channels c in
  let x := LIMIT 0 (u8 l) (u8 r) in
  exists c', ctrl_add_channel MAX c r l d = Some c' /\
    n_channels c' = ch + 1 /\
    ctrl_get c' ch = Some x /\
    c_calls c' = c_calls c ++ [mkNotifyCall ch (u8 r) (u8 d) (u8 l) x (u8 l)] /\
    enqueued (c_node c') = enqueued (c_node c) ++
      [mkPacket (Z.lor RF12_HDR_DST (Z.land RF12_HDR_MASK (u8 remote_host)))
                (payload_bytes 1 ch 0)].
Proof.
  cbn zeta. pose proof Hwf as (Hrl & Hll & Hdl & Hn & H256 & Hrg).
  assert (Hx : 0 <= LIMIT 0 (u8 l) (u8 r) <= u8 r)
    by (apply LIMIT_range; pose proof (u8_range r); lia).
  pose proof (u8_range r).
  unfold ctrl_add_channel, update.
  destruct (Z.ltb_spec (n_channels c) MAX); [|lia].
  cbn [n_channels c_range c_level c_data c_calls c_node].
  rewrite (u8_small (n_channels c)) by lia.
  destruct (Z.ltb_spec (n_channels c) (n_channels c + 1)); [|lia].
  rewrite !at_upd_eq by lia. rewrite (u8_small (LIMIT _ _ _)) by lia.
  eexists. split; [reflexivity|].
  unfold ctrl_sync, ctrl_with_node. cbn [n_channels c_calls c_level c_node].
  split; [reflexivity|]. split; [|split; [reflexivity|]].
  - unfold ctrl_get. cbn [n_channels c_level].
    rewrite (u8_small (n_channels c)) by lia.
    destruct (Z.ltb_spec (n_channels c) (n_channels c + 1)); [|lia].
    rewrite at_upd_eq by (rewrite ?length_upd; lia). reflexivity.
  - unfold send_status_request, send_update_request_rel.
    rewrite enqueued_send_packet, u8_u8, (u8_small (n_channels c)) by lia. reflexivity.
Qed.

Lemma ctrl_add_channel_spec_witness :
  exists c', ctrl_add_channel 2 (mkCtrl (node_init buf0 9) 1 [100; 0] [40; 0] [0; 0] [])
               50 90 3 = Some c' /\
    ctrl_get c' 1 = Some 50 /\ c_calls c' = [mkNotifyCall 1 50 3 90 50 90].
Proof.
  assert (Hwf : ctrl_wf 2 (mkCtrl (node_init buf0 9) 1 [100; 0] [40; 0] [0; 0] [])).
  { split; [reflexivity|]. split; [reflexivity|]. split; [reflexivity|].
    split; [cbn; lia|]. split; [lia|].
    intros i Hi. assert (i = 0) as -> by (cbn in Hi; lia). vm_compute. split; discriminate. }
  destruct (ctrl_add_channel_spec 2 _ 50 90 3 Hwf ltac:(cbn; lia))
    as (c' & E & _ & Hg & Hc & _).
  exists c'. split; [exact E|]. split; [exact Hg | exact Hc].
Defined.

Lemma LIMIT_small v r : 0 <= v <= r -> LIMIT 0 v r = v.
Proof. intros. unfold LIMIT. destruct (v <? 0) eqn:?, (r <? v) eqn:?; lia. Qed.

Lemma send_and_recv_good n hd bs :
  length bs = 2%nat ->
  send_and_recv n (mkRadio false true 0 hd bs) =
    (fst (send_and_recv n (mkRadio false true 0 hd bs)), Some (mkRecv hd bs)).
Proof.
  intros Hl. unfold send_and_recv. cbv zeta. cbn [recvDone rf12_crc rf12_data rf12_hdr].
  rewrite Hl. cbn [negb Z.eqb Z.of_nat].
  destruct bs as [|x [|y [|z bs]]]; try discriminate. reflexivity.
Qed.

(** End to end, absolute: the request that the controller's [set] hands
    to its node, received intact by the host, makes the host's [run]
    propose to its filter exactly the value the controller cached, when
    both sides register the channel with the same range; the host then
    stores the filter's answer.  Channel ids above 127 do not fit the
    7-bit channel field, hence the bound. *)
Theorem set_reaches_host MAX flt c ch v c' h
  (Hwf : ctrl_wf MAX c) (Hset : ctrl_set c ch v = Some c')
  (H127 : u8 ch <= 127) (Hch : u8 ch < num_channels h)
  (Hlen : num_channels h <= Z.of_nat (length (h_level h)))
  (Hrange : at_ (h_range h) (u8 ch) = at_ (c_range c) (u8 ch)) :
  exists p x, enqueued (c_node c') = enqueued (c_node c) ++ [p] /\
    ctrl_get c' ch = Some x /\
    exists h', host_run flt h (mkRadio false true 0 (hdr p) (b p)) = Some h' /\
      let r := at_ (h_range h) (u8 ch) in
      let dt := at_ (h_data h) (u8 ch) in
      let old := at_ (h_level h) (u8 ch) in
      h_calls h' = h_calls h ++ [mkFilterCall (u8 ch) r dt old x] /\
      host_get h' ch = Some (u8 (flt (h_calls h) (u8 ch) r dt old x)).
Proof.
  pose proof Hwf as (Hrl & Hll & Hdl & Hn & H256 & Hrg).
  pose proof (u8_range ch) as Hc.
  unfold ctrl_set, update in Hset.
  destruct (Z.ltb_spec (u8 ch) (n_channels c)) as [Hlt|]; [|discriminate].
  injection Hset as <-.
  set (x := u8 (LIMIT 0 v (at_ (c_range c) (u8 ch)))).
  assert (Hx : 0 <= x <= at_ (c_range c) (u8 ch)).
  { pose proof (Hrg (u8 ch) ltac:(lia)).
    pose proof (LIMIT_range v (at_ (c_range c) (u8 ch)) ltac:(lia)).
    unfold x. rewrite u8_small by lia. lia. }
  pose proof (Hrg (u8 ch) ltac:(lia)) as Hr0.
  set (pk := mkPacket (Z.lor RF12_HDR_DST (Z.land RF12_HDR_MASK (u8 remote_host)))
                      (payload_bytes 0 (u8 (u8 ch)) (u8 x))).
  exists pk, x. split; [apply enqueued_send_packet|]. split.
  { unfold ctrl_get, ctrl_with_node. cbn [n_channels c_level].
    destruct (Z.ltb_spec (u8 ch) (n_channels c)); [|lia].
    rewrite at_upd_eq by lia. reflexivity. }
  pose proof (byte1_ok_all 0 (u8 ch) ltac:(lia) ltac:(lia)) as H1.
  unfold byte1_ok in H1.
  apply andb_prop in H1 as [H1 _]; apply andb_prop in H1 as [H1 H4].
  apply Z.eqb_eq in H1. apply Bool.eqb_prop in H4.
  unfold host_run. rewrite (send_and_recv_good (h_node h) (hdr pk) (b pk) eq_refl).
  cbn [num_channels host_with_node].
  assert (Ech : channel (mkRecv (hdr pk) (b pk)) = u8 ch).
  { unfold channel, byte1, pk. cbn [rp_d nth b payload_bytes]. rewrite u8_u8 in H1 |- *. exact H1. }
  assert (Erel : relative (mkRecv (hdr pk) (b pk)) = false).
  { unfold relative, byte1, pk. cbn [rp_d nth b payload_bytes]. rewrite u8_u8 in H4 |- *. exact H4. }
  assert (Elev : abs_level (mkRecv (hdr pk) (b pk)) = x).
  { unfold abs_level, byte2, pk. cbn [rp_d nth b payload_bytes]. rewrite u8_u8. apply u8_small. lia. }
  rewrite Ech, Erel, Elev.
  destruct (Z.leb_spec (num_channels h) (u8 ch)); [lia|].
  unfold host_set. cbn [host_with_node num_channels h_range h_level h_data h_calls h_node]. rewrite u8_u8.
  destruct (Z.ltb_spec (u8 ch) (num_channels h)); [|lia].
  rewrite Hrange, LIMIT_small by lia.
  eexists. split; [reflexivity|]. cbn zeta. rewrite <- Hrange.
  split; [reflexivity|].
  unfold host_get. cbn [num_channels h_level].
  destruct (Z.ltb_spec (u8 ch) (num_channels h)); [|lia].
  rewrite at_upd_eq by lia. rewrite Hrange. reflexivity.
Qed.

Lemma set_reaches_host_witness :
  exists c' p, ctrl_set ctrl1 0 70 = Some c' /\
    enqueued (c_node c') = enqueued (c_node ctrl1) ++ [p] /\
    exists h', host_run pass_filter host1 (mkRadio false true 0 (hdr p) (b p)) = Some h' /\
      host_get h' 0 = Some 70 /\ ctrl_get c' 0 = Some 70.
Proof.
  destruct (ctrl_set ctrl1 0 70) as [c'|] eqn:Es; [|vm_compute in Es; discriminate Es].
  assert (Ec : Some c' = ctrl_set ctrl1 0 70) by (symmetry; exact Es).
  vm_compute in Ec. injection Ec as Ec.
  destruct (set_reaches_host 1 pass_filter ctrl1 0 70 c' host1 ctrl1_wf Es
              ltac:(vm_compute; discriminate) ltac:(reflexivity) ltac:(cbn; lia) ltac:(reflexivity))
    as (p & x & Ee & Eg & h' & Er & _ & Eh).
  rewrite Ec in Eg. vm_compute in Eg. injection Eg as <-.
  exists c', p. split; [reflexivity|]. split; [exact Ee|].
  exists h'. split; [exact Er|]. split; [rewrite Eh; reflexivity|].
  rewrite Ec. reflexivity.
Defined.

(** End to end, relative: the request that the controller's [adjust]
    hands to its node carries the delta clamped to -128..127, while the
    controller caches [level + delta] clamped to the range.  With both
    sides in step (same range, same level) the host's filter is proposed
    the controller's cached value exactly when the delta fits a signed
    byte; for a larger positive delta the host is proposed less than the
    controller cached, as soon as [level + 127] is below the range. *)
Theorem adjust_reaches_host MAX flt c ch delta c' h
  (Hwf : ctrl_wf MAX c) (Hadj : ctrl_adjust c ch delta = Some c') (Hdelta : delta <> 0)
  (H127 : u8 ch <= 127) (Hch : u8 ch < num_channels h)
  (Hlen : num_channels h <= Z.of_nat (length (h_level h)))
  (Hrange : at_ (h_range h) (u8 ch) = at_ (c_range c) (u8 ch))
  (Hlevel : at_ (h_level h) (u8 ch) = at_ (c_level c) (u8 ch)) :
  let rr := at_ (c_range c) (u8 ch) in
  let lvl := at_ (c_level c) (u8 ch) in
  let x := LIMIT 0 (lvl + delta) rr in
  let y := LIMIT 0 (lvl + LIMIT (-128) delta 127) rr in
  (exists p, enqueued (c_node c') = enqueued (c_node c) ++ [p] /\
    exists h', host_run flt h (mkRadio false true 0 (hdr p) (b p)) = Some h' /\
      h_calls h' = h_calls h ++ [mkFilterCall (u8 ch) rr (at_ (h_data h) (u8 ch)) lvl y] /\
      host_get h' ch = Some (u8 (flt (h_calls h) (u8 ch) rr (at_ (h_data h) (u8 ch)) lvl y))) /\
  ctrl_get c' ch = Some x /\
  (-128 <= delta <= 127 -> y = x) /\
  (127 < delta -> 0 <= lvl -> lvl + 127 < rr -> y < x).
Proof.
  cbn zeta. pose proof Hwf as (Hrl & Hll & Hdl & Hn & H256 & Hrg).
  pose proof (u8_range ch) as Hc.
  pose proof (LIMIT_s8_range delta) as Hd8.
  unfold ctrl_adjust, update in Hadj.
  rewrite (s8_small (LIMIT (-128) delta 127)) in Hadj by exact Hd8.
  destruct (Z.ltb_spec (u8 ch) (n_channels c)) as [Hlt|]; [|discriminate].
  destruct (Z.eqb_spec (LIMIT (-128) delta 127) 0) as [E0|_];
    [exfalso; apply Hdelta, LIMIT_s8_zero, E0|].
  cbn [negb] in Hadj. injection Hadj as <-.
  pose proof (Hrg (u8 ch) ltac:(lia)) as Hr.
  pose proof (LIMIT_range (at_ (c_level c) (u8 ch) + delta) (at_ (c_range c) (u8 ch))
                ltac:(lia)) as Hx.
  split; [|split; [|split]].
  - set (d := LIMIT (-128) delta 127) in *.
    set (pk := mkPacket (Z.lor RF12_HDR_DST (Z.land RF12_HDR_MASK (u8 remote_host)))
                        (payload_bytes 1 (u8 (u8 ch)) (s8 d))).
    exists pk. split; [apply enqueued_send_packet|].
    pose proof (byte1_ok_all 1 (u8 ch) ltac:(lia) ltac:(lia)) as H1.
    pose proof (byte2_rel_ok_all d Hd8) as H2.
    unfold byte1_ok, byte2_rel_ok in *.
    apply andb_prop in H1 as [H1 _]; apply andb_prop in H1 as [H1 H4].
    apply andb_prop in H2 as [H2 _].
    apply Z.eqb_eq in H1, H2. apply Bool.eqb_prop in H4.
    unfold host_run. rewrite (send_and_recv_good (h_node h) (hdr pk) (b pk) eq_refl).
    cbn [num_channels host_with_node].
    assert (Ech : channel (mkRecv (hdr pk) (b pk)) = u8 ch).
    { unfold channel, byte1, pk. cbn [rp_d nth b payload_bytes]. rewrite u8_u8 in H1 |- *. exact H1. }
    assert (Erel : relative (mkRecv (hdr pk) (b pk)) = true).
    { unfold relative, byte1, pk. cbn [rp_d nth b payload_bytes]. rewrite u8_u8 in H4 |- *. exact H4. }
    assert (Elev : rel_level (mkRecv (hdr pk) (b pk)) = d).
    { unfold rel_level, byte2, pk. cbn [rp_d nth b payload_bytes]. exact H2. }
    rewrite Ech, Erel, Elev.
    destruct (Z.leb_spec (num_channels h) (u8 ch)); [lia|].
    unfold host_adjust, host_set.
    cbn [host_with_node num_channels h_range h_level h_data h_calls h_node].
    rewrite !u8_u8.
    destruct (Z.ltb_spec (u8 ch) (num_channels h)); [|lia].
    eexists. split; [reflexivity|]. cbn zeta. rewrite Hrange, Hlevel.
    split; [reflexivity|].
    unfold host_get. cbn [num_channels h_level].
    destruct (Z.ltb_spec (u8 ch) (num_channels h)); [|lia].
    rewrite at_upd_eq by lia. reflexivity.
  - unfold ctrl_get, ctrl_with_node. cbn [n_channels c_level].
    destruct (Z.ltb_spec (u8 ch) (n_channels c)); [|lia].
    rewrite at_upd_eq by lia. rewrite u8_small by lia. reflexivity.
  - intros Hd. unfold LIMIT at 2.
    destruct (Z.ltb_spec delta (-128)); [lia|]. destruct (Z.ltb_spec 127 delta); [lia|].
    reflexivity.
  - intros Hd Hl0 Hlt2. unfold LIMIT at 2.
    destruct (Z.ltb_spec delta (-128)); [lia|]. destruct (Z.ltb_spec 127 delta); [|lia].
    unfold LIMIT.
    destruct (Z.ltb_spec (at_ (c_level c) (u8 ch) + 127) 0); [lia|].
    destruct (Z.ltb_spec (at_ (c_range c) (u8 ch)) (at_ (c_level c) (u8 ch) + 127)); [lia|].
    destruct (Z.ltb_spec (at_ (c_level c) (u8 ch) + delta) 0); [lia|].
    destruct (Z.ltb_spec (at_ (c_range c) (u8 ch)) (at_ (c_level c) (u8 ch) + delta)); lia.
Qed.

Lemma adjust_reaches_host_witness :
  exists c' p, ctrl_adjust ctrl1 0 10 = Some c' /\
    enqueued (c_node c') = enqueued (c_node ctrl1) ++ [p] /\
    (exists h', host_run pass_filter host1 (mkRadio false true 0 (hdr p) (b p)) = Some h' /\
      host_get h' 0 = Some 50) /\ ctrl_get c' 0 = Some 50.
Proof.
  destruct (ctrl_adjust ctrl1 0 10) as [c'|] eqn:Es; [|vm_compute in Es; discriminate Es].
  destruct (adjust_reaches_host 1 pass_filter ctrl1 0 10 c' host1 ctrl1_wf Es ltac:(lia)
              ltac:(vm_compute; discriminate) ltac:(reflexivity) ltac:(cbn; lia)
              ltac:(reflexivity) ltac:(reflexivity))
    as ((p & Ee & h' & Er & _ & Eh) & Eg & _ & _).
  exists c', p. split; [reflexivity|]. split; [exact Ee|]. split.
  - exists h'. split; [exact Er|]. rewrite Eh. vm_compute. reflexivity.
  - rewrite Eg. vm_compute. reflexivity.
Defined.

(** End to end, host to controller: the broadcast that the host's [set]
    hands to its node, received intact by a controller that knows the
    channel, makes the controller cache the host's new level clamped to
    its own range, hence the very level when that fits. *)
Theorem status_update_reaches_ctrl MAX flt h ch v h' c
  (Hset : host_set flt h ch v = Some h')
  (Hlen : num_channels h <= Z.of_nat (length (h_level h)))
  (Hwf : ctrl_wf MAX c) (H127 : u8 ch <= 127) (Hch : u8 ch < n_channels c) :
  exists p nl, enqueued (h_node h') = enqueued (h_node h) ++ [p] /\
    host_get h' ch = Some nl /\
    exists c', ctrl_run c (mkRadio false true 0 (hdr p) (b p)) = Some c' /\
      ctrl_get c' ch = Some (LIMIT 0 nl (at_ (c_range c) (u8 ch))) /\
      (nl <= at_ (c_range c) (u8 ch) -> ctrl_get c' ch = Some nl).
Proof.
  pose proof Hwf as (Hrl & Hll & Hdl & Hn & H256 & Hrg).
  pose proof (u8_range ch) as Hc.
  unfold host_set in Hset.
  destruct (Z.ltb_spec (u8 ch) (num_channels h)) as [Hlt|]; [|discriminate].
  injection Hset as <-.
  set (nl := u8 (flt (h_calls h) (u8 ch) _ _ _ _)).
  pose proof (u8_range (flt (h_calls h) (u8 ch) (at_ (h_range h) (u8 ch))
                (at_ (h_data h) (u8 ch)) (at_ (h_level h) (u8 ch))
                (LIMIT 0 v (at_ (h_range h) (u8 ch))))) as Hnl. fold nl in Hnl.
  set (pk := status_update_packet (h_node h) (u8 ch) nl).
  exists pk, nl. split; [apply enqueued_send_packet|]. split.
  { unfold host_get. cbn [num_channels h_level].
    destruct (Z.ltb_spec (u8 ch) (num_channels h)); [|lia].
    rewrite at_upd_eq by lia. reflexivity. }
  pose proof (byte1_ok_all 0 (u8 ch) ltac:(lia) ltac:(lia)) as H1.
  unfold byte1_ok in H1.
  apply andb_prop in H1 as [H1 _]; apply andb_prop in H1 as [H1 H4].
  apply Z.eqb_eq in H1. apply Bool.eqb_prop in H4.
  unfold ctrl_run. rewrite (send_and_recv_good (c_node c) (hdr pk) (b pk) eq_refl).
  cbn [n_channels ctrl_with_node].
  assert (Ech : channel (mkRecv (hdr pk) (b pk)) = u8 ch).
  { unfold channel, byte1, pk, status_update_packet. cbn [rp_d nth b payload_bytes]. rewrite u8_u8 in H1 |- *. exact H1. }
  assert (Erel : relative (mkRecv (hdr pk) (b pk)) = false).
  { unfold relative, byte1, pk, status_update_packet. cbn [rp_d nth b payload_bytes]. rewrite u8_u8 in H4 |- *. exact H4. }
  assert (Elev : abs_level (mkRecv (hdr pk) (b pk)) = nl).
  { unfold abs_level, byte2, pk, status_update_packet. cbn [rp_d nth b payload_bytes]. rewrite u8_u8. apply u8_small. lia. }
  rewrite Ech, Erel, Elev.
  destruct (Z.leb_spec (n_channels c) (u8 ch)); [lia|].
  unfold update. cbn [ctrl_with_node n_channels c_range c_level c_data c_calls c_node]. rewrite u8_u8.
  destruct (Z.ltb_spec (u8 ch) (n_channels c)); [|lia].
  pose proof (Hrg (u8 ch) ltac:(lia)) as Hr.
  pose proof (LIMIT_range nl (at_ (c_range c) (u8 ch)) ltac:(lia)) as Hx.
  eexists. split; [reflexivity|].
  unfold ctrl_get. cbn [n_channels c_level].
  destruct (Z.ltb_spec (u8 ch) (n_channels c)); [|lia].
  rewrite at_upd_eq by lia. rewrite u8_small by lia.
  split; [reflexivity|]. intros Hle. rewrite LIMIT_small by lia. reflexivity.
Qed.

Lemma status_update_reaches_ctrl_witness :
  exists h' p, host_set pass_filter host1 0 70 = Some h' /\
    enqueued (h_node h') = enqueued (h_node host1) ++ [p] /\
    exists c', ctrl_run ctrl1 (mkRadio false true 0 (hdr p) (b p)) = Some c' /\
      ctrl_get c' 0 = Some 70.
Proof.
  destruct (host_set pass_filter host1 0 70) as [h'|] eqn:Es; [|vm_compute in Es; discriminate Es].
  assert (Eh : Some h' = host_set pass_filter host1 0 70) by (symmetry; exact Es).
  vm_compute in Eh. injection Eh as Eh.
  destruct (status_update_reaches_ctrl 1 pass_filter host1 0 70 h' ctrl1 Es ltac:(cbn; lia)
              ctrl1_wf ltac:(vm_compute; discriminate) ltac:(reflexivity))
    as (p & nl & Ee & Eg & c' & Er & _ & Ec).
  rewrite Eh in Eg. vm_compute in Eg. injection Eg as <-.
  exists h', p. split; [reflexivity|]. split; [exact Ee|].
  exists c'. split; [exact Er|]. apply Ec. vm_compute. discriminate.
Defined.
